(** * The Discord relay bot of [src/index.ts]: message router, response
    streamer, cooldown tracker and history purge.

    The handler registered on [messageCreate] is embedded as a function in
    a small state-and-exception monad.  The state holds the process-wide
    [userCooldowns] map and the ordered trace of the effects the handler
    performs on its collaborators (Discord sends, agent calls, history
    deletions).  What the collaborators answer is an input of the model.

    Conventions of the embedding:
    - a JavaScript string is a [string]; one character stands for one
      UTF-16 code unit, so [String.length] is [.length];
    - a millisecond timestamp ([Date.now()], a cooldown expiry) is a [Z];
    - [message.reply] and [message.channel.send] are recorded in the trace
      and taken to resolve; rejections come from the agent, from the stream
      iterator and from the history purge. *)

From Stdlib Require Import ZArith Ascii Lia.
From stdpp Require Import gmap strings pretty list fin_maps.

Local Open Scope Z_scope.

(** ** JavaScript values, as far as the [catch] block inspects them *)

#[warnings="-register-all"]
Inductive JsValue : Type :=
| JsUndefined
| JsNull
| JsBoolean (b : bool)
| JsNumber (n : Z)
| JsString (s : string)
| JsObject (props : list (string * JsValue)).

Module Js.

(** Own property lookup [o[key]] on the list of properties. *)
Fixpoint lookupProp (key : string) (props : list (string * JsValue)) : JsValue :=
  match props with
  | [] => JsUndefined
  | (k, v) :: rest => if String.eqb k key then v else lookupProp key rest
  end.

(** Optional chaining [v?.key]: [undefined] on [null] and [undefined],
    the property otherwise (none of the keys read here exists on a
    primitive). *)
Definition optGet (v : JsValue) (key : string) : JsValue :=
  match v with
  | JsObject props => lookupProp key props
  | _ => JsUndefined
  end.

(** [v === 429]-style strict equality against a number literal. *)
Definition strictEqNumber (v : JsValue) (n : Z) : bool :=
  match v with
  | JsNumber m => m =? n
  | _ => false
  end.

(** Strict equality against a string literal. *)
Definition strictEqString (v : JsValue) (s : string) : bool :=
  match v with
  | JsString t => String.eqb t s
  | _ => false
  end.

(** [s.startsWith(pat)], the helper of [includes] and [replace]. *)
Fixpoint startsWith (pat s : string) : bool :=
  match pat, s with
  | EmptyString, _ => true
  | String _ _, EmptyString => false
  | String a pat', String b s' => if Ascii.eqb a b then startsWith pat' s' else false
  end.

(** [s.includes(pat)]. *)
Fixpoint includes (s pat : string) : bool :=
  if startsWith pat s then true
  else match s with
       | EmptyString => false
       | String _ s' => includes s' pat
       end.

Fixpoint dropChars (n : nat) (s : string) : string :=
  match n, s with
  | O, _ => s
  | S _, EmptyString => EmptyString
  | S n', String _ s' => dropChars n' s'
  end.

(** [s.replace(pat, rep)] with a string pattern: the first occurrence
    only. *)
Fixpoint replace (s pat rep : string) : string :=
  if startsWith pat s then rep +:+ dropChars (String.length pat) s
  else match s with
       | EmptyString => EmptyString
       | String c s' => String c (replace s' pat rep)
       end.

(** [Math.ceil(d / divisor)] for integers and a positive divisor. *)
Definition ceilDiv (d divisor : Z) : Z := - ((- d) / divisor).

End Js.

(** ** Constants (lines 9-11) *)

Definition MAX_MESSAGE_LENGTH : nat := 2000.
Definition DISCORD_MESSAGE_LENGTH_LIMIT : nat := 1990.
Definition COOLDOWN_PERIOD : Z := 10000.
Arguments MAX_MESSAGE_LENGTH : simpl never.
Arguments DISCORD_MESSAGE_LENGTH_LIMIT : simpl never.

(** ** Data of the gateway and of the agent *)

Inductive ChannelType : Type := GuildText | DM | GuildVoice | GroupDM.

Definition ChannelType_eqb (a b : ChannelType) : bool :=
  match a, b with
  | GuildText, GuildText | DM, DM | GuildVoice, GuildVoice | GroupDM, GroupDM => true
  | _, _ => false
  end.

(** An inbound message: the fields the handler reads. *)
Record Message : Type := mkMessage {
  author_id : string;
  author_bot : bool;
  channel_type : ChannelType;
  content : string
}.

(** One element of [fullStream]; [OtherPart] is any [type] the [switch]
    has no case for. *)
Inductive Part : Type :=
| TextDelta (textDelta : string)
| ToolCall (toolName : string)
| ToolResult (toolName : string)
| ErrorPart (error : JsValue)
| Finish
| OtherPart (type : string).

(** What the agent does for one request. *)
Inductive AgentRun : Type :=
| GetAgentRejects (e : JsValue)
| StreamRejects (e : JsValue)
| Streams (parts : list Part) (failure : option JsValue).

(** A message of the channel history and the channel as the purge meets
    it: the history newest first, and which requests the platform
    rejects. *)
Record DiscordMessage : Type := mkDiscordMessage {
  msg_id : nat;
  msg_author_id : string;
  msg_deletable : bool
}.

Record DMChannel : Type := mkDMChannel {
  client_user_id : string;
  history : list DiscordMessage;
  fetch_rejects : option JsValue;
  delete_rejects : nat -> option JsValue
}.

Record Env : Type := mkEnv {
  env_agent : AgentRun;
  env_channel : DMChannel
}.

(** ** Outbound messages, by the statement that sends them *)

Inductive Outbound : Type :=
| TooLongNotice (len : nat)
| WaitNotice (remainingTime : Z)
| DeletingNotice
| CheckingNotice (toolName : string)
| ToolErrorNotice
| BufferFlush (messageBuffer : string)
| RateLimitNotice
| GenericErrorNotice.

(** The text of an outbound message. *)
Definition text_of (o : Outbound) : string :=
  match o with
  | TooLongNotice len =>
      "Sorry, your message is too long (" +:+ pretty len +:+ " characters). "
      +:+ "Please keep it under " +:+ pretty MAX_MESSAGE_LENGTH +:+ " characters."
  | WaitNotice remainingTime =>
      "Please wait " +:+ pretty remainingTime +:+ " seconds before sending another message."
  | DeletingNotice => "Deleting my messages..."
  | CheckingNotice toolName => "Checking " +:+ toolName +:+ ". Please wait..."
  | ToolErrorNotice => "Sorry, there was an error executing the tool."
  | BufferFlush messageBuffer => messageBuffer
  | RateLimitNotice =>
      "Sorry, the request was too large for me to process. Please try breaking it down into smaller parts or wait a moment before trying again."
  | GenericErrorNotice =>
      "Sorry, I encountered an error while processing your request. Please try again later."
  end.

(** ** Effects and the handler monad *)

Inductive Effect : Type :=
| Replied (o : Outbound)
| Sent (o : Outbound)
| CooldownSet (user : string) (expiry : Z)
| CooldownDeleted (user : string)
| GetAgent (name : string)
| AgentStream (text : string) (maxSteps : Z)
| MessagesFetched (limit : nat)
| MessageDeleted (id : nat)
| Delayed (ms : Z).

Record World : Type := mkWorld {
  userCooldowns : gmap string Z;
  trace : list Effect
}.

Inductive outcome (A : Type) : Type :=
| Returned (a : A)
| Thrown (e : JsValue)
| OutOfFuel.
Arguments Returned {A} a.
Arguments Thrown {A} e.
Arguments OutOfFuel {A}.

Definition M (A : Type) : Type := World -> outcome A * World.

Definition ret {A} (a : A) : M A := fun w => (Returned a, w).

Definition bind {A B} (c : M A) (k : A -> M B) : M B :=
  fun w =>
    match c w with
    | (Returned a, w') => k a w'
    | (Thrown e, w') => (Thrown e, w')
    | (OutOfFuel, w') => (OutOfFuel, w')
    end.

Definition throw {A} (e : JsValue) : M A := fun w => (Thrown e, w).

Definition outOfFuel {A} : M A := fun w => (OutOfFuel, w).

(** [try { body } catch (error) { handler }]. *)
Definition tryCatch {A} (body : M A) (handler : JsValue -> M A) : M A :=
  fun w =>
    match body w with
    | (Thrown e, w') => handler e w'
    | r => r
    end.

Notation "'let*' x ':=' c 'in' k" := (bind c (fun x => k))
  (at level 10, x pattern, c at level 100, k at level 200).
Notation "c1 '>>' c2" := (bind c1 (fun _ => c2))
  (at level 60, right associativity).

Definition emit (e : Effect) : M unit :=
  fun w => (Returned tt, mkWorld (userCooldowns w) (trace w ++ [e])).

Definition getCooldowns : M (gmap string Z) :=
  fun w => (Returned (userCooldowns w), w).

(** [userCooldowns.set(user, expiry)]. *)
Definition setCooldown (user : string) (expiry : Z) : M unit :=
  fun w => (Returned tt,
            mkWorld (<[user := expiry]> (userCooldowns w))
                    (trace w ++ [CooldownSet user expiry])).

(** [userCooldowns.delete(user)]. *)
Definition deleteCooldown (user : string) : M unit :=
  fun w => (Returned tt,
            mkWorld (delete user (userCooldowns w))
                    (trace w ++ [CooldownDeleted user])).

Definition reply (o : Outbound) : M unit := emit (Replied o).
Definition send (o : Outbound) : M unit := emit (Sent o).

(** ** Cooldown tracker *)

Module Cooldown.

(** [userCooldowns.get(user) || 0] (line 91): a missing entry reads as
    [undefined] and a stored [0] is falsy, both give [0]. *)
Definition cooldownEnd (cooldowns : gmap string Z) (user : string) : Z :=
  default 0 (cooldowns !! user).

(** Lines 93-94: [None] when the message is allowed, [Some remainingTime]
    when it is denied. *)
Definition check (cooldowns : gmap string Z) (user : string) (now : Z) : option Z :=
  if now <? cooldownEnd cooldowns user
  then Some (Js.ceilDiv (cooldownEnd cooldowns user - now) 1000)
  else None.

(** Body of the loop of the cleanup timer (lines 238-240). *)
Definition sweepEntry (now : Z) (cooldowns : gmap string Z) (entry : string * Z) : gmap string Z :=
  if entry.2 <? now then delete entry.1 cooldowns else cooldowns.

(** One run of the cleanup timer (lines 236-241): the loop visits every
    entry present when it starts; deleting the visited entry does not
    disturb the iteration of a [Map]. *)
Definition sweep (now : Z) (cooldowns : gmap string Z) : gmap string Z :=
  foldl (sweepEntry now) cooldowns (map_to_list cooldowns).

End Cooldown.

(** ** History purge ([clearBotDirectMessages], lines 14-46) *)

Module Purge.

Definition PAGE_SIZE : nat := 100.

Definition removeMessage (id : nat) (hist : list DiscordMessage) : list DiscordMessage :=
  List.filter (fun m => negb (Nat.eqb (msg_id m) id)) hist.

(** The [for ... of botMessages.values()] loop (lines 30-38); the state
    is the remaining history and [messagesDeleted]. *)
Fixpoint deleteEach (channel : DMChannel) (botMessages : list DiscordMessage)
         (st : list DiscordMessage * nat) : M (list DiscordMessage * nat) :=
  match botMessages with
  | [] => ret st
  | message :: rest =>
      if msg_deletable message then
        match delete_rejects channel (msg_id message) with
        | Some e => throw e
        | None =>
            emit (MessageDeleted (msg_id message)) >>
            emit (Delayed 1000) >>
            deleteEach channel rest (removeMessage (msg_id message) st.1, S st.2)
        end
      else deleteEach channel rest st
  end.

(** The [do ... while (messages.size >= 100)] loop (lines 19-39). *)
Fixpoint purgeLoop (fuel : nat) (channel : DMChannel) (hist : list DiscordMessage)
         (messagesDeleted : nat) : M nat :=
  match fuel with
  | O => outOfFuel
  | S fuel' =>
      emit (MessagesFetched PAGE_SIZE) >>
      match fetch_rejects channel with
      | Some e => throw e
      | None =>
          let messages := take PAGE_SIZE hist in
          let botMessages :=
            List.filter (fun m => String.eqb (msg_author_id m) (client_user_id channel)) messages in
          match botMessages with
          | [] => ret messagesDeleted
          | _ =>
              let* st := deleteEach channel botMessages (hist, messagesDeleted) in
              if (PAGE_SIZE <=? length messages)%nat
              then purgeLoop fuel' channel st.1 st.2
              else ret st.2
          end
      end
  end.

(** The whole function: the [catch] logs and throws the error again. *)
Definition clearBotDirectMessages (fuel : nat) (channel : DMChannel) : M unit :=
  tryCatch
    (let* messagesDeleted := purgeLoop fuel channel (history channel) 0%nat in ret tt)
    (fun error => throw error).

End Purge.

(** ** Response streamer (lines 119-174) *)

Module Streamer.

Record State : Type := mkState {
  messageBuffer : string;
  checksShown : gmap string bool
}.

Definition initial : State := mkState "" ∅.

(** Line 132: the name shown for a raw tool identifier. *)
Definition displayName (rawName : string) : string :=
  Js.replace rawName "mastra_mastra" "".

(** The [switch (part.type)] of lines 125-164. *)
Definition handlePart (part : Part) (st : State) : M State :=
  match part with
  | TextDelta textDelta =>
      ret (mkState (messageBuffer st +:+ textDelta) (checksShown st))
  | ToolCall rawName =>
      if Js.includes rawName "mastra_mastra" then
        let toolName := displayName rawName in
        match checksShown st !! toolName with
        | Some _ => ret st
        | None =>
            send (CheckingNotice toolName) >>
            ret (mkState (messageBuffer st) (<[toolName := true]> (checksShown st)))
        end
      else ret st
  | ToolResult _ => ret st
  | ErrorPart _ => send ToolErrorNotice >> ret st
  | Finish => ret st
  | OtherPart _ => ret st
  end.

(** Lines 165-168. *)
Definition flushIfOver (st : State) : M State :=
  if (DISCORD_MESSAGE_LENGTH_LIMIT <? String.length (messageBuffer st))%nat
  then send (BufferFlush (messageBuffer st)) >> ret (mkState "" (checksShown st))
  else ret st.

(** The [for await (const part of fullStream)] loop over the parts the
    iterator yields. *)
Fixpoint forAwait (parts : list Part) (st : State) : M State :=
  match parts with
  | [] => ret st
  | part :: rest =>
      let* st1 := handlePart part st in
      let* st2 := flushIfOver st1 in
      forAwait rest st2
  end.

(** Lines 171-173. *)
Definition finalFlush (st : State) : M unit :=
  if (0 <? String.length (messageBuffer st))%nat
  then send (BufferFlush (messageBuffer st))
  else ret tt.

(** Lines 119-174 for a stream that yields [parts] and then either ends
    or makes the iterator throw [failure]. *)
Definition consume (parts : list Part) (failure : option JsValue) : M unit :=
  let* st := forAwait parts initial in
  match failure with
  | Some e => throw e
  | None => finalFlush st
  end.

End Streamer.

(** ** Message router (lines 76-202) *)

Module Router.

(** Lines 114-117: [mastra.getAgent] and [agent.stream]; the result is
    what [fullStream] will yield. *)
Definition callAgent (env : Env) (message : Message) : M (list Part * option JsValue) :=
  emit (GetAgent "discordMCPBotAgent") >>
  match env_agent env with
  | GetAgentRejects e => throw e
  | StreamRejects e => emit (AgentStream (content message) 10) >> throw e
  | Streams parts failure =>
      emit (AgentStream (content message) 10) >> ret (parts, failure)
  end.

(** Lines 114-174: the agent is called and its stream consumed. *)
Definition respond (env : Env) (message : Message) : M unit :=
  let* fullStream := callAgent env message in
  Streamer.consume fullStream.1 fullStream.2.

(** Lines 111-174, the body of the [try]. *)
Definition streamingPath (env : Env) (message : Message) (now : Z) : M unit :=
  setCooldown (author_id message) (now + COOLDOWN_PERIOD) >>
  respond env message.

(** The condition of lines 189-192. *)
Definition isRateLimitExceeded (error : JsValue) : bool :=
  Js.strictEqNumber (Js.optGet (Js.optGet error "lastError") "statusCode") 429
  && Js.strictEqString
       (Js.optGet (Js.optGet (Js.optGet (Js.optGet error "lastError") "data") "error") "code")
       "rate_limit_exceeded".

Definition errorNotice (error : JsValue) : Outbound :=
  if isRateLimitExceeded error then RateLimitNotice else GenericErrorNotice.

(** Lines 183-201, the [catch]. *)
Definition catchBlock (message : Message) (error : JsValue) : M unit :=
  deleteCooldown (author_id message) >>
  send (errorNotice error).

(** The [messageCreate] listener; [now] is what [Date.now()] returns at
    line 90 and [env] what the collaborators do for this message. *)
Definition messageCreate (fuel : nat) (env : Env) (message : Message) (now : Z) : M unit :=
  if author_bot message || negb (ChannelType_eqb (channel_type message) DM) then ret tt
  else if (MAX_MESSAGE_LENGTH <? String.length (content message))%nat then
    reply (TooLongNotice (String.length (content message)))
  else
    let* cooldowns := getCooldowns in
    match Cooldown.check cooldowns (author_id message) now with
    | Some remainingTime => reply (WaitNotice remainingTime)
    | None =>
        if ChannelType_eqb (channel_type message) DM
           && String.eqb (content message) "!cleardm"
        then
          reply DeletingNotice >>
          Purge.clearBotDirectMessages fuel (env_channel env)
        else
          tryCatch (streamingPath env message now) (catchBlock message)
    end.

End Router.

(** ** Observations on worlds and traces *)

(** The world [w] after the further effects [out]; the cooldown map is
    the one of [w]. *)
Definition extend (w : World) (out : list Effect) : World :=
  mkWorld (userCooldowns w) (trace w ++ out).

Module Obs.

(** The outbound chat message of an effect, if it is one. *)
Definition outbound (e : Effect) : option Outbound :=
  match e with
  | Replied o | Sent o => Some o
  | _ => None
  end.

Definition outbounds (tr : list Effect) : list Outbound := omap outbound tr.

(** The text of a buffer flush (lines 166 and 172). *)
Definition flushed (e : Effect) : option string :=
  match e with
  | Sent (BufferFlush s) => Some s
  | _ => None
  end.

Definition flushes (tr : list Effect) : list string := omap flushed tr.

Definition textDelta (p : Part) : option string :=
  match p with
  | TextDelta d => Some d
  | _ => None
  end.

Definition textDeltas (parts : list Part) : list string := omap textDelta parts.

Definition concatStrings (l : list string) : string := foldr String.append "" l.

Definition isChecking (d : string) (e : Effect) : bool :=
  match e with
  | Sent (CheckingNotice toolName) => String.eqb toolName d
  | _ => false
  end.

(** Number of "Checking d" notices in a trace. *)
Definition checkingCount (d : string) (tr : list Effect) : nat :=
  length (List.filter (isChecking d) tr).

(** A tool call that the streamer announces under the name [d]. *)
Definition announces (d : string) (p : Part) : bool :=
  match p with
  | ToolCall rawName =>
      Js.includes rawName "mastra_mastra" && String.eqb (Streamer.displayName rawName) d
  | _ => false
  end.

(** A tool call whose display name is [d], announced or not. *)
Definition callsTool (d : string) (p : Part) : bool :=
  match p with
  | ToolCall rawName => String.eqb (Streamer.displayName rawName) d
  | _ => false
  end.

(** The effects the streaming loop can have. *)
Definition isStreamEffect (e : Effect) : Prop :=
  match e with
  | Sent (CheckingNotice _) | Sent ToolErrorNotice | Sent (BufferFlush _) => True
  | _ => False
  end.

(** The effects the history purge can have. *)
Definition isPurgeEffect (e : Effect) : Prop :=
  match e with
  | MessagesFetched _ | MessageDeleted _ | Delayed _ => True
  | _ => False
  end.

(** The effects of calling the agent's stream and consuming it. *)
Definition isResponseEffect (e : Effect) : Prop :=
  match e with
  | AgentStream _ _ => True
  | Sent (CheckingNotice _) | Sent ToolErrorNotice | Sent (BufferFlush _) => True
  | _ => False
  end.

Definition isCooldownSet (e : Effect) : Prop :=
  match e with
  | CooldownSet _ _ => True
  | _ => False
  end.

(** What the agent run throws into the [try] block, if anything. *)
Definition thrownBy (run : AgentRun) : option JsValue :=
  match run with
  | GetAgentRejects e | StreamRejects e => Some e
  | Streams _ failure => failure
  end.

(** The rate-limit shape that line 190-191 test for. *)
Definition rateLimitShape (error : JsValue) : Prop :=
  Js.optGet (Js.optGet error "lastError") "statusCode" = JsNumber 429
  ∧ Js.optGet (Js.optGet (Js.optGet (Js.optGet error "lastError") "data") "error") "code"
    = JsString "rate_limit_exceeded".

(** The message passes the filters of lines 78-99. *)
Definition accepted (message : Message) (now : Z) (w : World) : Prop :=
  author_bot message = false
  ∧ channel_type message = DM
  ∧ (String.length (content message) ≤ MAX_MESSAGE_LENGTH)%nat
  ∧ Cooldown.check (userCooldowns w) (author_id message) now = None.

(** How the handler ends when the [try] block throws [thrown]. *)
Definition outcomeOf (thrown : option JsValue) : outcome unit :=
  match thrown with
  | Some e => Thrown e
  | None => Returned tt
  end.

(** The computation touches no cooldown and performs only effects that
    satisfy [P]. *)
Definition emitsOnly (P : Effect -> Prop) {A} (c : M A) : Prop :=
  forall w, exists r out, c w = (r, extend w out) /\ Forall P out.

(** What the flush after the loop (lines 171-173) sends. *)
Definition finalEffects (st : Streamer.State) : list Effect :=
  if (0 <? String.length (Streamer.messageBuffer st))%nat
  then [Sent (BufferFlush (Streamer.messageBuffer st))]
  else [].

End Obs.

(** ** The streaming loop as a relation

    [Loop parts st st' out]: from state [st] the loop over [parts] ends in
    state [st'] having performed the effects [out].  The relation is tied
    to [Streamer.forAwait] by [forAwait_Loop] below. *)

Module Rel.
Import Streamer.

Inductive Handles : Part -> State -> State -> list Effect -> Prop :=
| H_text d st :
    Handles (TextDelta d) st (mkState (messageBuffer st +:+ d) (checksShown st)) []
| H_tool_new rawName st :
    Js.includes rawName "mastra_mastra" = true ->
    checksShown st !! displayName rawName = None ->
    Handles (ToolCall rawName) st
            (mkState (messageBuffer st) (<[displayName rawName := true]> (checksShown st)))
            [Sent (CheckingNotice (displayName rawName))]
| H_tool_seen rawName st b :
    Js.includes rawName "mastra_mastra" = true ->
    checksShown st !! displayName rawName = Some b ->
    Handles (ToolCall rawName) st st []
| H_tool_unprefixed rawName st :
    Js.includes rawName "mastra_mastra" = false ->
    Handles (ToolCall rawName) st st []
| H_result toolName st : Handles (ToolResult toolName) st st []
| H_error e st : Handles (ErrorPart e) st st [Sent ToolErrorNotice]
| H_finish st : Handles Finish st st []
| H_other type st : Handles (OtherPart type) st st [].

Inductive Flushes : State -> State -> list Effect -> Prop :=
| F_over st :
    (DISCORD_MESSAGE_LENGTH_LIMIT < String.length (messageBuffer st))%nat ->
    Flushes st (mkState "" (checksShown st)) [Sent (BufferFlush (messageBuffer st))]
| F_under st :
    (String.length (messageBuffer st) ≤ DISCORD_MESSAGE_LENGTH_LIMIT)%nat ->
    Flushes st st [].

Inductive Loop : list Part -> State -> State -> list Effect -> Prop :=
| L_done st : Loop [] st st []
| L_part part rest st st1 st2 st3 out1 out2 out3 :
    Handles part st st1 out1 ->
    Flushes st1 st2 out2 ->
    Loop rest st2 st3 out3 ->
    Loop (part :: rest) st st3 (out1 ++ out2 ++ out3).

End Rel.

(** ** Concrete inputs used by the examples below *)

Module Sample.

Definition world0 : World := mkWorld ∅ [].

Definition repeatChar (n : nat) (c : ascii) : string :=
  Nat.iter n (String c) "".

Definition quietChannel : DMChannel := mkDMChannel "bot" [] None (fun _ => None).

Definition fromAlice (text : string) : Message := mkMessage "alice" false DM text.

(** A fetch of the channel history that the platform rejects. *)
Definition fetchError : JsValue := JsObject [("code", JsNumber 50001)].

Definition brokenChannel : DMChannel :=
  mkDMChannel "bot" [mkDiscordMessage 1 "bot" true] (Some fetchError) (fun _ => None).

(** The error the agent provider raises when it throttles a request. *)
Definition rateLimitError : JsValue :=
  JsObject [("lastError",
             JsObject [("statusCode", JsNumber 429);
                       ("data", JsObject [("error",
                          JsObject [("code", JsString "rate_limit_exceeded")])])])].

(** 1990 characters of text followed by one 14-character fragment. *)
Definition overlongStream : list Part :=
  [TextDelta (repeatChar 1990 "a"); TextDelta " international"].

End Sample.

(** ** Further observations: counts and projections of a trace *)

Module Tally.

(** The ids of the messages deleted, in the order of deletion. *)
Definition deletedId (e : Effect) : option nat :=
  match e with
  | MessageDeleted id => Some id
  | _ => None
  end.

Definition deletedIds (tr : list Effect) : list nat := omap deletedId tr.

Definition isFetch (e : Effect) : bool :=
  match e with
  | MessagesFetched _ => true
  | _ => false
  end.

(** Number of history pages fetched. *)
Definition fetchCount (tr : list Effect) : nat := length (List.filter isFetch tr).

Definition isToolError (e : Effect) : bool :=
  match e with
  | Sent ToolErrorNotice => true
  | _ => false
  end.

(** Number of "error executing the tool" notices in a trace. *)
Definition toolErrorCount (tr : list Effect) : nat := length (List.filter isToolError tr).

Definition isErrorPart (p : Part) : bool :=
  match p with
  | ErrorPart _ => true
  | _ => false
  end.

(** Number of [error] parts of a stream. *)
Definition errorPartCount (parts : list Part) : nat := length (List.filter isErrorPart parts).

(** The filter of line 24. *)
Definition byBot (channel : DMChannel) (m : DiscordMessage) : bool :=
  String.eqb (msg_author_id m) (client_user_id channel).

(** A message the purge deletes when it meets it: written by the bot
    and deletable. *)
Definition purgeable (channel : DMChannel) (m : DiscordMessage) : bool :=
  byBot channel m && msg_deletable m.

(** The effects of deleting the messages [ms] one after the other
    (lines 32-36): each deletion is followed by the pause. *)
Definition deletionEffects (ms : list DiscordMessage) : list Effect :=
  flat_map (fun m => [MessageDeleted (msg_id m); Delayed 1000]) ms.

(** An effect the purge may have on the channel [channel]: a deletion
    concerns a purgeable message of the history. *)
Definition purgeEffectOf (channel : DMChannel) (e : Effect) : Prop :=
  match e with
  | MessagesFetched _ | Delayed _ => True
  | MessageDeleted id =>
      exists m, m ∈ history channel /\ msg_id m = id /\ purgeable channel m = true
  | _ => False
  end.

(** An error the platform answers to a request of the purge. *)
Definition platformError (channel : DMChannel) (e : JsValue) : Prop :=
  fetch_rejects channel = Some e \/ exists id, delete_rejects channel id = Some e.

(** The platform rejects no deletion. *)
Definition deletesResolve (channel : DMChannel) : Prop :=
  forall id, delete_rejects channel id = None.

End Tally.

(** * Proofs *)

(** ** Strings *)

Section StringFacts.

Lemma append_empty_l (s : string) : "" +:+ s = s.
Proof. reflexivity. Qed.

Lemma append_cons (c : ascii) (s t : string) : String c s +:+ t = String c (s +:+ t).
Proof. reflexivity. Qed.

Lemma append_empty_r (s : string) : s +:+ "" = s.
Proof.
  induction s as [|c s IH]; [reflexivity|].
  now rewrite append_cons, IH.
Qed.

Lemma append_assoc (a b c : string) : (a +:+ b) +:+ c = a +:+ (b +:+ c).
Proof.
  induction a as [|x a IH]; [reflexivity|].
  now rewrite !append_cons, IH.
Qed.

Lemma length_append (a b : string) :
  String.length (a +:+ b) = (String.length a + String.length b)%nat.
Proof.
  induction a as [|x a IH]; [reflexivity|].
  rewrite append_cons. simpl. now rewrite IH.
Qed.

Lemma concatStrings_app (l1 l2 : list string) :
  Obs.concatStrings (l1 ++ l2) = Obs.concatStrings l1 +:+ Obs.concatStrings l2.
Proof.
  induction l1 as [|s l1 IH]; simpl; [reflexivity|].
  now rewrite IH, append_assoc.
Qed.

End StringFacts.

(** ** The monad and the trace *)

Section MonadFacts.

Lemma extend_nil (w : World) : extend w [] = w.
Proof. destruct w; unfold extend; simpl. now rewrite app_nil_r. Qed.

Lemma extend_extend (w : World) (a b : list Effect) :
  extend (extend w a) b = extend w (a ++ b).
Proof. unfold extend; simpl. now rewrite app_assoc. Qed.

Lemma emit_run (e : Effect) (w : World) : emit e w = (Returned tt, extend w [e]).
Proof. reflexivity. Qed.

Lemma bind_returned {A B} (c : M A) (k : A -> M B) (w w' : World) (a : A) :
  c w = (Returned a, w') -> bind c k w = k a w'.
Proof. intros H. unfold bind. now rewrite H. Qed.

Lemma bind_thrown {A B} (c : M A) (k : A -> M B) (w w' : World) (e : JsValue) :
  c w = (Thrown e, w') -> bind c k w = (Thrown e, w').
Proof. intros H. unfold bind. now rewrite H. Qed.

Lemma bind_out_of_fuel {A B} (c : M A) (k : A -> M B) (w w' : World) :
  c w = (OutOfFuel, w') -> bind c k w = (OutOfFuel, w').
Proof. intros H. unfold bind. now rewrite H. Qed.

Lemma flushes_app (a b : list Effect) :
  Obs.flushes (a ++ b) = Obs.flushes a ++ Obs.flushes b.
Proof. apply omap_app. Qed.

Lemma checkingCount_app (d : string) (a b : list Effect) :
  Obs.checkingCount d (a ++ b) = (Obs.checkingCount d a + Obs.checkingCount d b)%nat.
Proof. unfold Obs.checkingCount. now rewrite List.filter_app, length_app. Qed.

End MonadFacts.

(** ** The loop relation describes [Streamer.forAwait] *)

Section LoopSound.
Import Streamer Rel.

Lemma handlePart_Handles (part : Part) (st : State) :
  exists st' out,
    Handles part st st' out
    /\ forall w, handlePart part st w = (Returned st', extend w out).
Proof.
  destruct part as [d|rawName|toolName|e| |type]; simpl.
  - eexists _, []. split; [constructor|]. intros w. now rewrite extend_nil.
  - destruct (Js.includes rawName "mastra_mastra") eqn:Hinc.
    + destruct (checksShown st !! displayName rawName) as [b|] eqn:Hseen.
      * exists st, []. split; [now apply H_tool_seen with b|].
        intros w. unfold ret. now rewrite extend_nil.
      * eexists _, _. split; [now apply H_tool_new|]. reflexivity.
    + exists st, []. split; [now apply H_tool_unprefixed|].
      intros w. unfold ret. now rewrite extend_nil.
  - exists st, []. split; [constructor|]. intros w. unfold ret. now rewrite extend_nil.
  - eexists st, _. split; [constructor|]. reflexivity.
  - exists st, []. split; [constructor|]. intros w. unfold ret. now rewrite extend_nil.
  - exists st, []. split; [constructor|]. intros w. unfold ret. now rewrite extend_nil.
Qed.

Lemma flushIfOver_Flushes (st : State) :
  exists st' out,
    Flushes st st' out
    /\ forall w, flushIfOver st w = (Returned st', extend w out).
Proof.
  unfold flushIfOver.
  destruct (Nat.ltb_spec DISCORD_MESSAGE_LENGTH_LIMIT (String.length (messageBuffer st)))
    as [Hover|Hunder].
  - eexists _, _. split; [now apply F_over|]. reflexivity.
  - exists st, []. split; [now apply F_under|].
    intros w. unfold ret. now rewrite extend_nil.
Qed.

Lemma forAwait_Loop (parts : list Part) :
  forall st, exists st' out,
    Loop parts st st' out
    /\ forall w, forAwait parts st w = (Returned st', extend w out).
Proof.
  induction parts as [|part rest IH]; intros st.
  - exists st, []. split; [constructor|]. intros w. simpl. unfold ret.
    now rewrite extend_nil.
  - destruct (handlePart_Handles part st) as (st1 & out1 & H1 & R1).
    destruct (flushIfOver_Flushes st1) as (st2 & out2 & H2 & R2).
    destruct (IH st2) as (st3 & out3 & H3 & R3).
    exists st3, (out1 ++ out2 ++ out3). split; [now apply L_part with st1 st2|].
    intros w. simpl.
    rewrite (bind_returned _ _ _ _ _ (R1 w)).
    rewrite (bind_returned _ _ _ _ _ (R2 _)).
    rewrite R3. now rewrite !extend_extend.
Qed.

End LoopSound.

(** ** Invariants of the loop *)

Section LoopFacts.
Import Streamer Rel.

(** Text is neither lost nor reordered: what has been flushed, followed
    by what is still buffered, is the old buffer followed by the text
    fragments. *)
Lemma Loop_text parts st st' out :
  Loop parts st st' out ->
  Obs.concatStrings (Obs.flushes out) +:+ messageBuffer st'
  = messageBuffer st +:+ Obs.concatStrings (Obs.textDeltas parts).
Proof.
  induction 1 as [st|part rest st st1 st2 st3 out1 out2 out3 Hh Hf _ IH].
  - simpl. now rewrite append_empty_l, append_empty_r.
  - rewrite !flushes_app, !concatStrings_app, !append_assoc, IH.
    destruct Hf; destruct Hh; simpl;
      rewrite ?append_empty_l, ?append_empty_r, ?append_assoc; reflexivity.
Qed.

(** Every flush inside the loop sends more than 1990 characters. *)
Lemma Loop_flush_over parts st st' out :
  Loop parts st st' out ->
  Forall (fun s => (DISCORD_MESSAGE_LENGTH_LIMIT < String.length s)%nat) (Obs.flushes out).
Proof.
  induction 1 as [st|part rest st st1 st2 st3 out1 out2 out3 Hh Hf _ IH].
  - constructor.
  - rewrite !flushes_app. repeat apply Forall_app_2; [| |exact IH].
    + destruct Hh; constructor.
    + destruct Hf; simpl; [constructor; [assumption | constructor] | constructor].
Qed.

(** After a part has been handled the buffer is back under the
    threshold. *)
Lemma Loop_buffer_under parts st st' out :
  Loop parts st st' out ->
  (String.length (messageBuffer st) ≤ DISCORD_MESSAGE_LENGTH_LIMIT)%nat ->
  (String.length (messageBuffer st') ≤ DISCORD_MESSAGE_LENGTH_LIMIT)%nat.
Proof.
  induction 1 as [st|part rest st st1 st2 st3 out1 out2 out3 Hh Hf _ IH]; intros Hst.
  - assumption.
  - apply IH. destruct Hf; simpl; [unfold DISCORD_MESSAGE_LENGTH_LIMIT; lia | assumption].
Qed.

(** The loop only sends tool notices and flushes. *)
Lemma Loop_effects parts st st' out :
  Loop parts st st' out -> Forall Obs.isStreamEffect out.
Proof.
  induction 1 as [st|part rest st st1 st2 st3 out1 out2 out3 Hh Hf _ IH].
  - constructor.
  - repeat apply Forall_app_2; [| |exact IH].
    + destruct Hh; repeat constructor.
    + destruct Hf; repeat constructor.
Qed.

(** With fragments of at most [k] characters no flush of the loop is
    longer than [1990 + k]. *)
Lemma Loop_flush_bound (k : nat) parts st st' out :
  Loop parts st st' out ->
  (String.length (messageBuffer st) ≤ DISCORD_MESSAGE_LENGTH_LIMIT)%nat ->
  Forall (fun d => (String.length d ≤ k)%nat) (Obs.textDeltas parts) ->
  Forall (fun s => (String.length s ≤ DISCORD_MESSAGE_LENGTH_LIMIT + k)%nat) (Obs.flushes out).
Proof.
  induction 1 as [st|part rest st st1 st2 st3 out1 out2 out3 Hh Hf Hl IH];
    intros Hst Hk.
  - constructor.
  - assert (Hrest : Forall (fun d => (String.length d ≤ k)%nat) (Obs.textDeltas rest)).
    { destruct part; simpl in Hk; try assumption. now inversion Hk. }
    assert (H1 : (String.length (messageBuffer st1) ≤ DISCORD_MESSAGE_LENGTH_LIMIT + k)%nat).
    { destruct Hh; cbn [messageBuffer]; try lia. rewrite length_append.
      simpl in Hk. inversion Hk; subst. lia. }
    rewrite !flushes_app. repeat apply Forall_app_2.
    + destruct Hh; constructor.
    + destruct Hf; simpl; [constructor; [exact H1 | constructor] | constructor].
    + apply IH; [|assumption].
      destruct Hf; simpl; [unfold DISCORD_MESSAGE_LENGTH_LIMIT; lia | assumption].
Qed.

End LoopFacts.

(** ** Tool notices *)

Section ToolNotices.
Import Streamer Rel.

Lemma Handles_checks (d : string) part st st' out :
  Handles part st st' out ->
  Obs.checkingCount d out
  = match checksShown st !! d with
    | Some _ => 0%nat
    | None => if Obs.announces d part then 1%nat else 0%nat
    end
  /\ checksShown st' !! d
     = match checksShown st !! d with
       | Some b => Some b
       | None => if Obs.announces d part then Some true else None
       end.
Proof.
  destruct 1 as [t st|rawName st Hinc Hnew|rawName st b Hinc Hseen|rawName st Hinc
                |t st|e st|st|t st];
    cbn [Obs.announces checksShown];
    try (split; [|]; destruct (checksShown st !! d); reflexivity).
  - rewrite Hinc. cbn [andb]. unfold Obs.checkingCount. cbn [List.filter Obs.isChecking].
    destruct (String.eqb_spec (displayName rawName) d) as [Heq|Hne].
    + rewrite Heq in *. rewrite Hnew, lookup_insert_eq. split; reflexivity.
    + rewrite lookup_insert_ne by assumption.
      split; destruct (checksShown st !! d); reflexivity.
  - rewrite Hinc. cbn [andb].
    destruct (String.eqb_spec (displayName rawName) d) as [Heq|Hne].
    + rewrite Heq in *. rewrite Hseen. split; reflexivity.
    + split; destruct (checksShown st !! d); reflexivity.
  - rewrite Hinc. cbn [andb]. split; destruct (checksShown st !! d); reflexivity.
Qed.

Lemma Flushes_checks (d : string) st st' out :
  Flushes st st' out ->
  Obs.checkingCount d out = 0%nat /\ checksShown st' = checksShown st.
Proof. destruct 1; split; reflexivity. Qed.

(** A display name is announced at most once, and exactly once when it
    was not shown before and an announcing tool call occurs. *)
Lemma Loop_checks (d : string) parts st st' out :
  Loop parts st st' out ->
  Obs.checkingCount d out
  = match checksShown st !! d with
    | Some _ => 0%nat
    | None => if existsb (Obs.announces d) parts then 1%nat else 0%nat
    end.
Proof.
  induction 1 as [st|part rest st st1 st2 st3 out1 out2 out3 Hh Hf _ IH].
  - simpl. now destruct (checksShown st !! d).
  - destruct (Handles_checks d _ _ _ _ Hh) as [Hc1 Hs1].
    destruct (Flushes_checks d _ _ _ Hf) as [Hc2 Hs2].
    rewrite !checkingCount_app, Hc1, Hc2, IH, Hs2, Hs1.
    cbn [existsb].
    destruct (checksShown st !! d); [reflexivity|].
    destruct (Obs.announces d part); cbn [orb]; [reflexivity|].
    now destruct (existsb (Obs.announces d) rest).
Qed.

End ToolNotices.

(** ** The streamer as a whole *)

Section StreamerFacts.
Import Streamer Rel.

Lemma finalFlush_run (st : State) (w : World) :
  finalFlush st w = (Returned tt, extend w (Obs.finalEffects st)).
Proof.
  unfold finalFlush, Obs.finalEffects.
  destruct (0 <? String.length (messageBuffer st))%nat; [reflexivity|].
  unfold ret. now rewrite extend_nil.
Qed.

(** A stream that ends normally: the loop, then the final flush. *)
Lemma consume_run (parts : list Part) :
  exists st' mid,
    Loop parts initial st' mid
    /\ (forall w, forAwait parts initial w = (Returned st', extend w mid))
    /\ (forall w, consume parts None w
                  = (Returned tt, extend w (mid ++ Obs.finalEffects st')))
    /\ (forall w e, consume parts (Some e) w = (Thrown e, extend w mid)).
Proof.
  destruct (forAwait_Loop parts initial) as (st' & mid & HL & Hrun).
  exists st', mid. repeat split; [exact HL|exact Hrun| |].
  - intros w. unfold consume. rewrite (bind_returned _ _ _ _ _ (Hrun w)).
    now rewrite finalFlush_run, extend_extend.
  - intros w e. unfold consume. now rewrite (bind_returned _ _ _ _ _ (Hrun w)).
Qed.

Lemma flushes_finalEffects (st : State) :
  Obs.concatStrings (Obs.flushes (Obs.finalEffects st)) = messageBuffer st.
Proof.
  unfold Obs.finalEffects.
  destruct (messageBuffer st) as [|c s] eqn:Hbuf; [reflexivity|].
  simpl. now rewrite append_empty_r.
Qed.

Lemma finalEffects_nonempty (st : State) :
  Forall (fun s => (0 < String.length s)%nat) (Obs.flushes (Obs.finalEffects st)).
Proof.
  unfold Obs.finalEffects.
  destruct (Nat.ltb_spec 0 (String.length (messageBuffer st))); simpl;
    [constructor; [assumption | constructor] | constructor].
Qed.

Lemma finalEffects_stream (st : State) : Forall Obs.isStreamEffect (Obs.finalEffects st).
Proof.
  unfold Obs.finalEffects.
  destruct (0 <? String.length (messageBuffer st))%nat; repeat constructor.
Qed.

Lemma finalEffects_checks (d : string) (st : State) :
  Obs.checkingCount d (Obs.finalEffects st) = 0%nat.
Proof.
  unfold Obs.finalEffects.
  now destruct (0 <? String.length (messageBuffer st))%nat.
Qed.

(** Without text fragments nothing is flushed by the loop and the
    buffer stays as it is. *)
Lemma Loop_no_text parts st st' out :
  Loop parts st st' out ->
  Obs.textDeltas parts = [] ->
  (String.length (messageBuffer st) ≤ DISCORD_MESSAGE_LENGTH_LIMIT)%nat ->
  Obs.flushes out = [] /\ messageBuffer st' = messageBuffer st.
Proof.
  induction 1 as [st|part rest st st1 st2 st3 out1 out2 out3 Hh Hf _ IH];
    intros Hno Hst.
  - split; reflexivity.
  - assert (Hrest : Obs.textDeltas rest = []).
    { destruct part; simpl in Hno; [discriminate|assumption..]. }
    assert (H1 : Obs.flushes out1 = [] /\ messageBuffer st1 = messageBuffer st).
    { destruct Hh; simpl in Hno; try discriminate; split; reflexivity. }
    destruct H1 as [Ho1 Hb1].
    assert (H2 : Obs.flushes out2 = [] /\ messageBuffer st2 = messageBuffer st).
    { rewrite <- Hb1. assert (Hst1 := Hst). rewrite <- Hb1 in Hst1.
      destruct Hf as [s Hover|s Hunder]; [lia | split; reflexivity]. }
    destruct H2 as [Ho2 Hb2].
    destruct IH as [Ho3 Hb3]; [assumption | rewrite Hb2; assumption |].
    rewrite !flushes_app, Ho1, Ho2, Ho3, Hb3, Hb2. split; reflexivity.
Qed.

(** A stream of text fragments only: every effect is a buffer flush. *)
Lemma Loop_text_only (ds : list string) st st' out :
  Loop (TextDelta <$> ds) st st' out ->
  text_of <$> Obs.outbounds out = Obs.flushes out.
Proof.
  remember (TextDelta <$> ds) as parts eqn:Hparts.
  intros HL. revert ds Hparts.
  induction HL as [st|part rest st st1 st2 st3 out1 out2 out3 Hh Hf _ IH];
    intros ds Hparts.
  - reflexivity.
  - destruct ds as [|d ds]; [discriminate|].
    injection Hparts as -> ->.
    unfold Obs.outbounds in *. rewrite !omap_app, !fmap_app, !flushes_app.
    rewrite (IH ds eq_refl).
    inversion Hh; subst. destruct Hf; reflexivity.
Qed.

End StreamerFacts.

(** ** Results on the response streamer *)

Section StreamerResults.
Import Streamer Rel.

Lemma textDeltas_text_only (ds : list string) : Obs.textDeltas (TextDelta <$> ds) = ds.
Proof. induction ds as [|d ds IH]; simpl; [reflexivity | now f_equal]. Qed.

Lemma finalEffects_text_only (st : State) :
  text_of <$> Obs.outbounds (Obs.finalEffects st) = Obs.flushes (Obs.finalEffects st).
Proof.
  unfold Obs.finalEffects.
  now destruct (0 <? String.length (messageBuffer st))%nat.
Qed.

(** With text fragments of at most ten characters every flush, inside
    the loop and at the end, has at most 2000 characters. *)
Lemma short_fragments_fit (parts : list Part) (w : World) :
  Forall (fun d => (String.length d ≤ 10)%nat) (Obs.textDeltas parts) ->
  exists out,
    consume parts None w = (Returned tt, extend w out)
    /\ Forall (fun s => (String.length s ≤ 2000)%nat) (Obs.flushes out).
Proof.
  intros Hshort.
  destruct (consume_run parts) as (st' & mid & HL & _ & Hrun & _).
  exists (mid ++ Obs.finalEffects st'). split; [apply Hrun|].
  rewrite flushes_app. apply Forall_app_2.
  - apply (Loop_flush_bound 10 _ _ _ _ HL); [simpl; lia | exact Hshort].
  - assert (Hunder := Loop_buffer_under _ _ _ _ HL).
    unfold Obs.finalEffects.
    destruct (0 <? String.length (messageBuffer st'))%nat; simpl; [|constructor].
    constructor; [|constructor].
    unfold DISCORD_MESSAGE_LENGTH_LIMIT in Hunder. simpl in Hunder. lia.
Qed.

End StreamerResults.

(** C1 (the code at a failing input).  The stream yields 1990 characters
    of text and then the 14-character fragment " international".  The
    threshold test runs after the fragment has been appended, so the one
    message the streamer sends has 2004 characters, more than the 2000 the
    platform accepts. *)
Theorem overlong_flush_sent :
  exists s,
    Streamer.consume Sample.overlongStream None Sample.world0
    = (Returned tt, extend Sample.world0 [Sent (BufferFlush s)])
    /\ String.length (text_of (BufferFlush s)) = 2004%nat
    /\ (2000 < String.length (text_of (BufferFlush s)))%nat.
Proof.
  eexists. split; [vm_compute; reflexivity|].
  split; [vm_compute; reflexivity|].
  apply Nat.ltb_lt. vm_compute. reflexivity.
Qed.

(** C2.  For every finite stream that ends normally, the texts of the
    buffer flushes, concatenated in the order they are sent, are the text
    fragments of the stream concatenated in emission order.  For a stream
    of text fragments only, the flushes are all the outbound messages. *)
Theorem flushed_text_is_stream_text (parts : list Part) (ds : list string) (w : World) :
  (exists out,
      Streamer.consume parts None w = (Returned tt, extend w out)
      /\ Obs.concatStrings (Obs.flushes out) = Obs.concatStrings (Obs.textDeltas parts))
  /\ (exists out,
         Streamer.consume (TextDelta <$> ds) None w = (Returned tt, extend w out)
         /\ text_of <$> Obs.outbounds out = Obs.flushes out
         /\ Obs.concatStrings (text_of <$> Obs.outbounds out) = Obs.concatStrings ds).
Proof.
  assert (Hall : forall ps, exists st' mid,
             Rel.Loop ps Streamer.initial st' mid
             /\ Streamer.consume ps None w
                = (Returned tt, extend w (mid ++ Obs.finalEffects st'))
             /\ Obs.concatStrings (Obs.flushes (mid ++ Obs.finalEffects st'))
                = Obs.concatStrings (Obs.textDeltas ps)).
  { intros ps. destruct (consume_run ps) as (st' & mid & HL & _ & Hrun & _).
    exists st', mid. repeat split; [exact HL | apply Hrun |].
    rewrite flushes_app, concatStrings_app, flushes_finalEffects.
    rewrite (Loop_text _ _ _ _ HL). reflexivity. }
  split.
  - destruct (Hall parts) as (st' & mid & _ & Hrun & Htext). eauto.
  - destruct (Hall (TextDelta <$> ds)) as (st' & mid & HL & Hrun & Htext).
    exists (mid ++ Obs.finalEffects st').
    assert (Hout : text_of <$> Obs.outbounds (mid ++ Obs.finalEffects st')
                   = Obs.flushes (mid ++ Obs.finalEffects st')).
    { unfold Obs.outbounds. rewrite omap_app, fmap_app, flushes_app.
      fold (Obs.outbounds mid). fold (Obs.outbounds (Obs.finalEffects st')).
      now rewrite (Loop_text_only _ _ _ _ HL), finalEffects_text_only. }
    repeat split; [exact Hrun | exact Hout |].
    now rewrite Hout, Htext, textDeltas_text_only.
Qed.

(** C4 (as stated, at a concrete input).  Two tool calls for the tool
    "search" have the same display name, yet no "Checking" notice is sent:
    the identifier does not contain "mastra_mastra". *)
Lemma unprefixed_tool_never_announced :
  Streamer.displayName "search" = "search"
  /\ List.filter (Obs.callsTool "search") [ToolCall "search"; ToolCall "search"]
     = [ToolCall "search"; ToolCall "search"]
  /\ Streamer.consume [ToolCall "search"; ToolCall "search"] None Sample.world0
     = (Returned tt, extend Sample.world0 [])
  /\ Obs.checkingCount "search" [] <> 1%nat.
Proof. repeat split; try reflexivity. discriminate. Qed.

(** C4 (amended).  Within one response and for every display name [d]:
    when the stream has at least one tool call whose identifier contains
    "mastra_mastra" and whose display name is [d], exactly one "Checking"
    notice for [d] is sent, however many such calls there are; when it has
    none, no notice for [d] is sent. *)
Theorem tool_notice_once (parts : list Part) (d : string) (w : World) :
  exists out,
    Streamer.consume parts None w = (Returned tt, extend w out)
    /\ Obs.checkingCount d out
       = if existsb (Obs.announces d) parts then 1%nat else 0%nat.
Proof.
  destruct (consume_run parts) as (st' & mid & HL & _ & Hrun & _).
  exists (mid ++ Obs.finalEffects st'). split; [apply Hrun|].
  rewrite checkingCount_app, finalEffects_checks, (Loop_checks d _ _ _ _ HL).
  cbn [Streamer.initial Streamer.checksShown]. rewrite lookup_empty. lia.
Qed.

(** C10.  The loop flushes only buffers longer than 1990 characters, the
    flush after the loop sends only a non-empty buffer, so no flush is
    empty; a stream without text fragments is answered by no flush at
    all. *)
Theorem no_empty_flush (parts : list Part) (w : World) :
  exists st' mid fin,
    Streamer.forAwait parts Streamer.initial w = (Returned st', extend w mid)
    /\ Streamer.finalFlush st' (extend w mid) = (Returned tt, extend w (mid ++ fin))
    /\ Streamer.consume parts None w = (Returned tt, extend w (mid ++ fin))
    /\ Forall (fun s => (1990 < String.length s)%nat) (Obs.flushes mid)
    /\ Forall (fun s => (0 < String.length s)%nat) (Obs.flushes fin)
    /\ Forall (fun s => s <> "") (Obs.flushes (mid ++ fin))
    /\ (Obs.textDeltas parts = [] -> Obs.flushes (mid ++ fin) = []).
Proof.
  destruct (consume_run parts) as (st' & mid & HL & Hloop & Hrun & _).
  exists st', mid, (Obs.finalEffects st').
  assert (Hmid := Loop_flush_over _ _ _ _ HL).
  assert (Hfin := finalEffects_nonempty st').
  split; [apply Hloop|].
  split; [now rewrite finalFlush_run, extend_extend|].
  split; [apply Hrun|].
  split; [exact Hmid|].
  split; [exact Hfin|].
  split.
  - rewrite flushes_app. apply Forall_app_2.
    + eapply Forall_impl; [exact Hmid|]. intros s Hs ->. simpl in Hs. lia.
    + eapply Forall_impl; [exact Hfin|]. intros s Hs ->. simpl in Hs. lia.
  - intros Hno.
    destruct (Loop_no_text _ _ _ _ HL Hno) as [Hnone Hbuf]; [simpl; lia|].
    rewrite flushes_app, Hnone. unfold Obs.finalEffects. rewrite Hbuf. reflexivity.
Qed.

Lemma no_empty_flush_witness :
  exists st' mid fin,
    Streamer.consume [ToolCall "mastra_mastraDocs"; Finish] None Sample.world0
    = (Returned tt, extend Sample.world0 (mid ++ fin))
    /\ Streamer.forAwait [ToolCall "mastra_mastraDocs"; Finish] Streamer.initial Sample.world0
       = (Returned st', extend Sample.world0 mid)
    /\ Obs.flushes (mid ++ fin) = [].
Proof.
  destruct (no_empty_flush [ToolCall "mastra_mastraDocs"; Finish] Sample.world0)
    as (st' & mid & fin & Hloop & _ & Hrun & _ & _ & _ & Hno).
  exists st', mid, fin. repeat split; [exact Hrun | exact Hloop |].
  apply Hno. reflexivity.
Defined.

(** ** Results on the cooldown tracker *)

Section CooldownFacts.

Lemma ceilDiv_bounds (d : Z) :
  1000 * (Js.ceilDiv d 1000 - 1) < d <= 1000 * Js.ceilDiv d 1000.
Proof.
  unfold Js.ceilDiv.
  pose proof (Z.div_mod (- d) 1000 ltac:(lia)) as Hdm.
  pose proof (Z.mod_pos_bound (- d) 1000 ltac:(lia)) as Hm.
  lia.
Qed.

Lemma check_denied (cooldowns : gmap string Z) (user : string) (now remainingTime : Z) :
  0 <= now ->
  Cooldown.check cooldowns user now = Some remainingTime ->
  exists expiry,
    cooldowns !! user = Some expiry
    /\ now < expiry
    /\ remainingTime = Js.ceilDiv (expiry - now) 1000.
Proof.
  unfold Cooldown.check, Cooldown.cooldownEnd. intros Hnow.
  destruct (cooldowns !! user) as [expiry|]; simpl.
  - destruct (Z.ltb_spec now expiry); [|discriminate].
    intros [= <-]. exists expiry. auto.
  - destruct (Z.ltb_spec now 0); [lia | discriminate].
Qed.

Lemma foldl_sweepEntry_lookup (now : Z) (entries : list (string * Z)) :
  forall (acc : gmap string Z) (user : string),
    foldl (Cooldown.sweepEntry now) acc entries !! user
    = if existsb (fun entry => String.eqb entry.1 user && (entry.2 <? now)) entries
      then None
      else acc !! user.
Proof.
  induction entries as [|[k v] entries IH]; intros acc user; [reflexivity|].
  cbn [foldl existsb]. rewrite IH.
  destruct (existsb _ entries); [now rewrite orb_true_r|].
  rewrite orb_false_r. unfold Cooldown.sweepEntry. cbn [fst snd].
  destruct (String.eqb_spec k user) as [->|Hne]; cbn [andb].
  - destruct (v <? now); [apply lookup_delete_eq | reflexivity].
  - destruct (v <? now); [now apply lookup_delete_ne | reflexivity].
Qed.

Lemma expired_entry_listed (now : Z) (cooldowns : gmap string Z) (user : string) :
  existsb (fun entry => String.eqb entry.1 user && (entry.2 <? now)) (map_to_list cooldowns)
  = match cooldowns !! user with
    | Some expiry => expiry <? now
    | None => false
    end.
Proof.
  destruct (existsb _ (map_to_list cooldowns)) eqn:Hex.
  - apply existsb_exists in Hex as ([k v] & Hin & Hk).
    apply list_elem_of_In, elem_of_map_to_list in Hin.
    cbn [fst snd] in Hk. apply andb_true_iff in Hk as [Hk Hv].
    apply String.eqb_eq in Hk. subst k. now rewrite Hin.
  - destruct (cooldowns !! user) as [expiry|] eqn:Hlook; [|reflexivity].
    destruct (expiry <? now) eqn:Hold; [|reflexivity].
    rewrite <- Hex. apply existsb_exists.
    exists (user, expiry). split.
    + now apply list_elem_of_In, elem_of_map_to_list.
    + cbn [fst snd]. now rewrite String.eqb_refl, Hold.
Qed.

End CooldownFacts.

(** C5.  With [now] a time of the clock (not negative): the check allows
    the message exactly when the user has no entry or has one whose expiry
    is not after [now]; when it denies, the entry's expiry is after [now]
    and the reported wait is ceil((expiry - now) / 1000), the least integer
    [r] with expiry - now <= 1000 r, and it is positive. *)
Theorem cooldown_check_spec (cooldowns : gmap string Z) (user : string) (now : Z)
        (Hnow : 0 <= now) :
  (Cooldown.check cooldowns user now = None
   <-> cooldowns !! user = None
       \/ exists expiry, cooldowns !! user = Some expiry /\ expiry <= now)
  /\ (forall remainingTime,
         Cooldown.check cooldowns user now = Some remainingTime ->
         exists expiry,
           cooldowns !! user = Some expiry
           /\ now < expiry
           /\ remainingTime = Js.ceilDiv (expiry - now) 1000
           /\ 1000 * (remainingTime - 1) < expiry - now <= 1000 * remainingTime
           /\ 0 < remainingTime).
Proof.
  split.
  - unfold Cooldown.check, Cooldown.cooldownEnd.
    destruct (cooldowns !! user) as [expiry|]; simpl.
    + destruct (Z.ltb_spec now expiry).
      * split; [discriminate|]. intros [Hnone|(e & [= <-] & He)]; [discriminate | lia].
      * split; [|reflexivity]. intros _. right. exists expiry. auto.
    + destruct (Z.ltb_spec now 0); [lia|]. split; auto.
  - intros remainingTime Hdenied.
    destruct (check_denied _ _ _ _ Hnow Hdenied) as (expiry & Hlook & Hlt & ->).
    exists expiry. pose proof (ceilDiv_bounds (expiry - now)).
    repeat split; try assumption; lia.
Qed.

Lemma cooldown_check_spec_witness :
  0 <= 3000
  /\ exists expiry,
       ({["alice" := 10000]} : gmap string Z) !! "alice" = Some expiry
       /\ 3000 < expiry
       /\ 7 = Js.ceilDiv (expiry - 3000) 1000
       /\ 1000 * (7 - 1) < expiry - 3000 <= 1000 * 7
       /\ 0 < 7.
Proof.
  split; [lia|].
  apply (proj2 (cooldown_check_spec {["alice" := 10000]} "alice" 3000 ltac:(lia)) 7).
  vm_compute. reflexivity.
Defined.

(** C8 (as stated, at a concrete input).  An entry whose expiry equals
    [now] has expiry <= now, and the sweep leaves it in the map. *)
Lemma sweep_keeps_entry_expiring_now :
  ({["alice" := 1000]} : gmap string Z) !! "alice" = Some 1000
  /\ 1000 <= 1000
  /\ Cooldown.sweep 1000 {["alice" := 1000]} !! "alice" = Some 1000.
Proof.
  split; [vm_compute; reflexivity|].
  split; [lia | vm_compute; reflexivity].
Qed.

(** C8 (amended).  One run of the sweep removes every entry whose expiry
    is before [now] and leaves every entry whose expiry is [now] or later
    unchanged; it adds none. *)
Theorem sweep_lookup (now : Z) (cooldowns : gmap string Z) (user : string) :
  Cooldown.sweep now cooldowns !! user
  = match cooldowns !! user with
    | Some expiry => if expiry <? now then None else Some expiry
    | None => None
    end.
Proof.
  unfold Cooldown.sweep.
  rewrite foldl_sweepEntry_lookup, expired_entry_listed.
  destruct (cooldowns !! user) as [expiry|]; [|reflexivity].
  now destruct (expiry <? now).
Qed.

(** ** Computations that leave the cooldowns alone *)

Section Frames.
Variable P : Effect -> Prop.

Lemma emitsOnly_ret {A} (a : A) : Obs.emitsOnly P (ret a).
Proof.
  intros w. exists (Returned a), []. split; [|constructor].
  unfold ret. now rewrite extend_nil.
Qed.

Lemma emitsOnly_throw {A} (e : JsValue) : Obs.emitsOnly P (@throw A e).
Proof.
  intros w. exists (Thrown e), []. split; [|constructor].
  unfold throw. now rewrite extend_nil.
Qed.

Lemma emitsOnly_outOfFuel {A} : Obs.emitsOnly P (@outOfFuel A).
Proof.
  intros w. exists OutOfFuel, []. split; [|constructor].
  unfold outOfFuel. now rewrite extend_nil.
Qed.

Lemma emitsOnly_getCooldowns : Obs.emitsOnly P getCooldowns.
Proof.
  intros w. exists (Returned (userCooldowns w)), []. split; [|constructor].
  unfold getCooldowns. now rewrite extend_nil.
Qed.

Lemma emitsOnly_emit (e : Effect) : P e -> Obs.emitsOnly P (emit e).
Proof.
  intros He w. exists (Returned tt), [e]. split; [reflexivity|].
  constructor; [exact He | constructor].
Qed.

Lemma emitsOnly_bind {A B} (c : M A) (k : A -> M B) :
  Obs.emitsOnly P c -> (forall a, Obs.emitsOnly P (k a)) -> Obs.emitsOnly P (bind c k).
Proof.
  intros Hc Hk w. destruct (Hc w) as (r & out & Hr & Ho).
  destruct r as [a|e|].
  - destruct (Hk a (extend w out)) as (r2 & out2 & Hr2 & Ho2).
    exists r2, (out ++ out2). split; [|now apply Forall_app_2].
    now rewrite (bind_returned _ _ _ _ _ Hr), Hr2, extend_extend.
  - exists (Thrown e), out. split; [|exact Ho]. now apply bind_thrown.
  - exists OutOfFuel, out. split; [|exact Ho]. now apply bind_out_of_fuel.
Qed.

Lemma emitsOnly_tryCatch {A} (body : M A) (handler : JsValue -> M A) :
  Obs.emitsOnly P body -> (forall e, Obs.emitsOnly P (handler e)) ->
  Obs.emitsOnly P (tryCatch body handler).
Proof.
  intros Hb Hh w. destruct (Hb w) as (r & out & Hr & Ho).
  unfold tryCatch. rewrite Hr. destruct r as [a|e|].
  - exists (Returned a), out. auto.
  - destruct (Hh e (extend w out)) as (r2 & out2 & Hr2 & Ho2).
    exists r2, (out ++ out2). split; [|now apply Forall_app_2].
    now rewrite Hr2, extend_extend.
  - exists OutOfFuel, out. auto.
Qed.

End Frames.

Lemma emitsOnly_weaken (P Q : Effect -> Prop) {A} (c : M A) :
  (forall e, P e -> Q e) -> Obs.emitsOnly P c -> Obs.emitsOnly Q c.
Proof.
  intros HPQ Hc w. destruct (Hc w) as (r & out & Hr & Ho).
  exists r, out. split; [exact Hr|]. eapply Forall_impl; [exact Ho | exact HPQ].
Qed.

(** ** The history purge only fetches, deletes and waits *)

Section PurgeFacts.
Variable channel : DMChannel.

Lemma deleteEach_purge (botMessages : list DiscordMessage) :
  forall st, Obs.emitsOnly Obs.isPurgeEffect (Purge.deleteEach channel botMessages st).
Proof.
  induction botMessages as [|message rest IH]; intros st; simpl.
  - apply emitsOnly_ret.
  - destruct (msg_deletable message); [|apply IH].
    destruct (delete_rejects channel (msg_id message)); [apply emitsOnly_throw|].
    apply emitsOnly_bind; [now apply emitsOnly_emit|]. intros _.
    apply emitsOnly_bind; [now apply emitsOnly_emit|]. intros _.
    apply IH.
Qed.

Lemma purgeLoop_purge (fuel : nat) :
  forall hist messagesDeleted,
    Obs.emitsOnly Obs.isPurgeEffect (Purge.purgeLoop fuel channel hist messagesDeleted).
Proof.
  induction fuel as [|fuel IH]; intros hist messagesDeleted; simpl.
  - apply emitsOnly_outOfFuel.
  - apply emitsOnly_bind; [now apply emitsOnly_emit|]. intros _.
    destruct (fetch_rejects channel); [apply emitsOnly_throw|].
    destruct (List.filter _ (take Purge.PAGE_SIZE hist)); [apply emitsOnly_ret|].
    apply emitsOnly_bind; [apply deleteEach_purge|]. intros st.
    match goal with
    | |- context [if ?again then _ else _] => destruct again
    end; [apply IH | apply emitsOnly_ret].
Qed.

Lemma clearBotDirectMessages_purge (fuel : nat) :
  Obs.emitsOnly Obs.isPurgeEffect (Purge.clearBotDirectMessages fuel channel).
Proof.
  unfold Purge.clearBotDirectMessages. apply emitsOnly_tryCatch.
  - apply emitsOnly_bind; [apply purgeLoop_purge|]. intros _. apply emitsOnly_ret.
  - intros e. apply emitsOnly_throw.
Qed.

End PurgeFacts.

(** ** The error classification *)

Section Classification.

Lemma strictEqNumber_true (v : JsValue) (n : Z) :
  Js.strictEqNumber v n = true <-> v = JsNumber n.
Proof.
  destruct v; simpl; try (split; [discriminate | intros [=]]).
  rewrite Z.eqb_eq. split; [now intros -> | now intros [= ->]].
Qed.

Lemma strictEqString_true (v : JsValue) (s : string) :
  Js.strictEqString v s = true <-> v = JsString s.
Proof.
  destruct v; simpl; try (split; [discriminate | intros [=]]).
  rewrite String.eqb_eq. split; [now intros -> | now intros [= ->]].
Qed.

Lemma isRateLimitExceeded_shape (error : JsValue) :
  Router.isRateLimitExceeded error = true <-> Obs.rateLimitShape error.
Proof.
  unfold Router.isRateLimitExceeded, Obs.rateLimitShape.
  now rewrite andb_true_iff, strictEqNumber_true, strictEqString_true.
Qed.

Lemma errorNotice_rate_limit (error : JsValue) :
  Router.errorNotice error = RateLimitNotice <-> Obs.rateLimitShape error.
Proof.
  rewrite <- isRateLimitExceeded_shape. unfold Router.errorNotice.
  destruct (Router.isRateLimitExceeded error); split; (reflexivity || discriminate).
Qed.

Lemma errorNotice_generic (error : JsValue) :
  Router.errorNotice error = GenericErrorNotice <-> ~ Obs.rateLimitShape error.
Proof.
  rewrite <- isRateLimitExceeded_shape. unfold Router.errorNotice.
  destruct (Router.isRateLimitExceeded error); split;
    try reflexivity; try discriminate; intros H; try (now exfalso; apply H).
Qed.

End Classification.

(** ** The router *)

Section RouterFacts.
Variables (fuel : nat) (env : Env) (message : Message) (now : Z).

Let user := author_id message.
Let armed := CooldownSet user (now + COOLDOWN_PERIOD).
Let asked := GetAgent "discordMCPBotAgent".

(** The agent call followed by the streamer: the effects, and whether
    it throws. *)
Lemma respond_run :
  exists pre,
    Forall Obs.isResponseEffect pre
    /\ forall w, Router.respond env message w
                 = (Obs.outcomeOf (Obs.thrownBy (env_agent env)), extend w (asked :: pre)).
Proof.
  unfold Router.respond, Router.callAgent.
  destruct (env_agent env) as [e|e|parts failure]; cbn [Obs.thrownBy Obs.outcomeOf].
  - exists []. split; [constructor | reflexivity].
  - exists [AgentStream (content message) 10]. split; [repeat constructor|].
    intros w. unfold extend, bind, emit, throw. simpl. now rewrite <- app_assoc.
  - destruct (consume_run parts) as (st' & mid & HL & _ & Hok & Hfail).
    assert (Hcall : forall w,
               (emit asked >> emit (AgentStream (content message) 10) >> ret (parts, failure)) w
               = (Returned (parts, failure),
                  extend w [asked; AgentStream (content message) 10])).
    { intros w. unfold extend, bind, emit, ret. simpl. now rewrite <- app_assoc. }
    assert (Hmid : Forall Obs.isResponseEffect mid).
    { eapply Forall_impl; [exact (Loop_effects _ _ _ _ HL)|].
      intros [o|o| | | | | | |]; try contradiction. now destruct o. }
    destruct failure as [e|].
    + exists (AgentStream (content message) 10 :: mid).
      split; [now constructor|]. intros w.
      rewrite (bind_returned _ _ _ _ _ (Hcall w)). cbn [fst snd].
      now rewrite Hfail, extend_extend.
    + exists (AgentStream (content message) 10 :: mid ++ Obs.finalEffects st').
      split.
      * constructor; [exact I|]. apply Forall_app_2; [exact Hmid|].
        eapply Forall_impl; [apply finalEffects_stream|].
        intros [o|o| | | | | | |]; try contradiction. now destruct o.
      * intros w. rewrite (bind_returned _ _ _ _ _ (Hcall w)). cbn [fst snd Obs.outcomeOf].
        now rewrite Hok, extend_extend.
Qed.

(** An accepted message other than the command runs the [try] block. *)
Lemma messageCreate_streaming (w : World) :
  Obs.accepted message now w ->
  content message <> "!cleardm" ->
  Router.messageCreate fuel env message now w
  = tryCatch (Router.streamingPath env message now) (Router.catchBlock message) w.
Proof.
  intros (Hbot & Hdm & Hlen & Hcheck) Hne. unfold Router.messageCreate.
  rewrite Hbot, Hdm. cbn [ChannelType_eqb negb orb andb].
  apply Nat.ltb_ge in Hlen. rewrite Hlen.
  unfold bind at 1, getCooldowns. rewrite Hcheck.
  apply String.eqb_neq in Hne. now rewrite Hne.
Qed.

(** What the handler does on the streaming path. *)
Lemma streaming_run (w : World) :
  Obs.accepted message now w ->
  content message <> "!cleardm" ->
  exists pre,
    Forall Obs.isResponseEffect pre
    /\ Router.messageCreate fuel env message now w
       = (Returned tt,
          match Obs.thrownBy (env_agent env) with
          | Some error =>
              mkWorld (delete user (userCooldowns w))
                      (trace w ++ armed :: asked :: pre
                       ++ [CooldownDeleted user; Sent (Router.errorNotice error)])
          | None =>
              mkWorld (<[user := now + COOLDOWN_PERIOD]> (userCooldowns w))
                      (trace w ++ armed :: asked :: pre)
          end).
Proof.
  intros Hacc Hne. rewrite (messageCreate_streaming w Hacc Hne).
  destruct respond_run as (pre & Hpre & Hrun).
  exists pre. split; [exact Hpre|].
  unfold tryCatch, Router.streamingPath.
  unfold bind at 1, setCooldown. rewrite Hrun.
  destruct (Obs.thrownBy (env_agent env)) as [error|]; cbn [Obs.outcomeOf].
  - unfold Router.catchBlock, bind, deleteCooldown, send, emit, extend. simpl.
    fold user. rewrite delete_insert_eq.
    do 2 f_equal. rewrite <- !app_assoc. reflexivity.
  - unfold extend. simpl. fold user. do 2 f_equal. now rewrite <- app_assoc.
Qed.

(** On the text "!cleardm" the handler never writes the cooldown map. *)
Lemma cleardm_no_cooldown :
  content message = "!cleardm" ->
  Obs.emitsOnly (fun e => ~ Obs.isCooldownSet e) (Router.messageCreate fuel env message now).
Proof.
  intros Hcmd. unfold Router.messageCreate. rewrite Hcmd.
  destruct (author_bot message); cbn [orb]; [apply emitsOnly_ret|].
  destruct (ChannelType_eqb (channel_type message) DM); cbn [negb andb];
    [|apply emitsOnly_ret].
  cbn [String.length Nat.ltb Nat.leb MAX_MESSAGE_LENGTH].
  change (MAX_MESSAGE_LENGTH <? String.length "!cleardm")%nat with false.
  cbv iota.
  apply emitsOnly_bind; [apply emitsOnly_getCooldowns|]. intros cooldowns.
  destruct (Cooldown.check cooldowns (author_id message) now).
  - apply emitsOnly_emit. intros [].
  - change (String.eqb "!cleardm" "!cleardm") with true. cbv iota.
    apply emitsOnly_bind; [apply emitsOnly_emit; intros []|]. intros _.
    eapply emitsOnly_weaken; [|apply clearBotDirectMessages_purge].
    intros [o|o| | | | | | |]; simpl; tauto.
Qed.

End RouterFacts.

(** C9.  A direct message from a user with more than 2000 characters is
    answered by exactly one "too long" notice and nothing else happens:
    the handler returns, the trace grows by that one reply (no agent call,
    no other message) and the cooldown map is unchanged. *)
Theorem too_long_rejected (fuel : nat) (env : Env) (message : Message) (now : Z) (w : World)
        (Hbot : author_bot message = false)
        (Hdm : channel_type message = DM)
        (Hlong : (2000 < String.length (content message))%nat) :
  Router.messageCreate fuel env message now w
  = (Returned tt,
     mkWorld (userCooldowns w)
             (trace w ++ [Replied (TooLongNotice (String.length (content message)))])).
Proof.
  unfold Router.messageCreate. rewrite Hbot, Hdm. cbn [ChannelType_eqb negb orb].
  apply Nat.ltb_lt in Hlong. change 2000%nat with MAX_MESSAGE_LENGTH in Hlong.
  rewrite Hlong. reflexivity.
Qed.

Lemma too_long_rejected_witness :
  Router.messageCreate 1 (mkEnv (Streams [TextDelta "hi"] None) Sample.quietChannel)
                       (Sample.fromAlice (Sample.repeatChar 2001 "x")) 5000 Sample.world0
  = (Returned tt, mkWorld ∅ [Replied (TooLongNotice 2001)]).
Proof.
  apply (too_long_rejected 1 (mkEnv (Streams [TextDelta "hi"] None) Sample.quietChannel)
                           (Sample.fromAlice (Sample.repeatChar 2001 "x")) 5000 Sample.world0).
  - reflexivity.
  - reflexivity.
  - apply Nat.ltb_lt. vm_compute. reflexivity.
Defined.

(** C3 (the code at a failing input).  The user sends "!cleardm" and the
    platform rejects the fetch of the channel history.  The command is
    dispatched outside the [try] block and [clearBotDirectMessages] throws
    the error again, so the handler ends by throwing it; the only message
    sent is the acknowledgement, no failure notice follows. *)
Theorem purge_failure_escapes :
  Router.messageCreate 3 (mkEnv (Streams [] None) Sample.brokenChannel)
                       (Sample.fromAlice "!cleardm") 5000 Sample.world0
  = (Thrown Sample.fetchError,
     mkWorld ∅ [Replied DeletingNotice; MessagesFetched 100]).
Proof. vm_compute. reflexivity. Qed.

(** C6.  When the agent call or the stream throws [error] while an
    accepted message other than "!cleardm" is handled, the handler returns
    normally, the user's cooldown entry is gone, and the trace ends with
    the deletion of the entry followed by one notice; before them come only
    the arming, the agent calls, tool notices and flushes.  The notice is
    the "request too large" one exactly when [error.lastError.statusCode]
    is 429 and [error.lastError.data.error.code] is "rate_limit_exceeded",
    and the generic one otherwise. *)
Theorem streaming_error_reported (fuel : nat) (env : Env) (message : Message) (now : Z)
        (w : World) (error : JsValue)
        (Haccepted : Obs.accepted message now w)
        (Hstream : content message <> "!cleardm")
        (Hthrown : Obs.thrownBy (env_agent env) = Some error) :
  (exists pre,
      Forall Obs.isResponseEffect pre
      /\ Router.messageCreate fuel env message now w
         = (Returned tt,
            mkWorld (delete (author_id message) (userCooldowns w))
                    (trace w
                     ++ CooldownSet (author_id message) (now + COOLDOWN_PERIOD)
                        :: GetAgent "discordMCPBotAgent"
                        :: pre
                     ++ [CooldownDeleted (author_id message);
                         Sent (Router.errorNotice error)])))
  /\ (Router.errorNotice error = RateLimitNotice <-> Obs.rateLimitShape error)
  /\ (Router.errorNotice error = GenericErrorNotice <-> ~ Obs.rateLimitShape error).
Proof.
  split; [|split; [apply errorNotice_rate_limit | apply errorNotice_generic]].
  destruct (streaming_run fuel env message now w Haccepted Hstream) as (pre & Hpre & Hrun).
  rewrite Hthrown in Hrun. exists pre. split; assumption.
Qed.

Lemma streaming_error_reported_witness :
  Obs.rateLimitShape Sample.rateLimitError
  /\ exists pre,
       Router.messageCreate 1 (mkEnv (Streams [TextDelta "hi"] (Some Sample.rateLimitError))
                                     Sample.quietChannel)
                            (Sample.fromAlice "hello") 5000 Sample.world0
       = (Returned tt,
          mkWorld (delete "alice" ∅)
                  ([] ++ CooldownSet "alice" (5000 + COOLDOWN_PERIOD)
                      :: GetAgent "discordMCPBotAgent"
                      :: pre ++ [CooldownDeleted "alice"; Sent RateLimitNotice])).
Proof.
  destruct (streaming_error_reported
              1 (mkEnv (Streams [TextDelta "hi"] (Some Sample.rateLimitError)) Sample.quietChannel)
              (Sample.fromAlice "hello") 5000 Sample.world0 Sample.rateLimitError)
    as ((pre & _ & Hrun) & _ & _).
  - split; [reflexivity|]. split; [reflexivity|].
    split; [apply Nat.leb_le; vm_compute; reflexivity | vm_compute; reflexivity].
  - discriminate.
  - reflexivity.
  - split; [split; reflexivity|]. exists pre. exact Hrun.
Defined.

(** C7.  An accepted message other than "!cleardm": the handler first
    sets the user's entry to the arrival time plus 10000 ms and only then
    asks for the agent; the entry is still there at the end unless the
    [try] block threw.  A message whose text is "!cleardm": whatever else
    holds, the handler sets no cooldown entry and leaves the map as it
    was. *)
Theorem cooldown_armed_unless_cleardm (fuel : nat) (env : Env) (message : Message)
        (now : Z) (w : World) :
  (Obs.accepted message now w ->
   content message <> "!cleardm" ->
   exists rest,
     (Router.messageCreate fuel env message now w).1 = Returned tt
     /\ trace (Router.messageCreate fuel env message now w).2
        = trace w ++ CooldownSet (author_id message) (now + 10000)
                  :: GetAgent "discordMCPBotAgent" :: rest
     /\ userCooldowns (Router.messageCreate fuel env message now w).2
        = match Obs.thrownBy (env_agent env) with
          | None => <[author_id message := now + 10000]> (userCooldowns w)
          | Some _ => delete (author_id message) (userCooldowns w)
          end)
  /\ (content message = "!cleardm" ->
      exists out,
        trace (Router.messageCreate fuel env message now w).2 = trace w ++ out
        /\ Forall (fun e => ~ Obs.isCooldownSet e) out
        /\ userCooldowns (Router.messageCreate fuel env message now w).2 = userCooldowns w).
Proof.
  split.
  - intros Haccepted Hstream.
    destruct (streaming_run fuel env message now w Haccepted Hstream) as (pre & _ & Hrun).
    rewrite Hrun. destruct (Obs.thrownBy (env_agent env)) as [error|]; cbn [fst snd trace userCooldowns].
    + eexists. repeat split; reflexivity.
    + eexists. repeat split; reflexivity.
  - intros Hcmd.
    destruct (cleardm_no_cooldown fuel env message now Hcmd w) as (r & out & Hrun & Hout).
    rewrite Hrun. exists out.
    split; [reflexivity|]. split; [exact Hout | reflexivity].
Qed.

Lemma cooldown_armed_unless_cleardm_witness :
  (exists rest,
      trace (Router.messageCreate 1 (mkEnv (Streams [TextDelta "hi"] None) Sample.quietChannel)
                                  (Sample.fromAlice "hello") 5000 Sample.world0).2
      = [] ++ CooldownSet "alice" (5000 + 10000) :: GetAgent "discordMCPBotAgent" :: rest)
  /\ userCooldowns (Router.messageCreate 5 (mkEnv (Streams [] None) Sample.quietChannel)
                                         (Sample.fromAlice "!cleardm") 5000 Sample.world0).2
     = ∅.
Proof.
  split.
  - destruct (proj1 (cooldown_armed_unless_cleardm
                       1 (mkEnv (Streams [TextDelta "hi"] None) Sample.quietChannel)
                       (Sample.fromAlice "hello") 5000 Sample.world0))
      as (rest & _ & Htrace & _).
    + split; [reflexivity|]. split; [reflexivity|].
      split; [apply Nat.leb_le; vm_compute; reflexivity | vm_compute; reflexivity].
    + discriminate.
    + exists rest. exact Htrace.
  - destruct (proj2 (cooldown_armed_unless_cleardm
                       5 (mkEnv (Streams [] None) Sample.quietChannel)
                       (Sample.fromAlice "!cleardm") 5000 Sample.world0) eq_refl)
      as (out & _ & _ & Hmap).
    exact Hmap.
Defined.

(** ** The cooldown gate inside the handler *)


(** The second message of a user, three seconds after an accepted one. *)
Example second_message_waits_seven_seconds :
  Obs.outbounds
    (trace (Router.messageCreate 1 (mkEnv (Streams [] None) Sample.quietChannel)
                                 (Sample.fromAlice "again") 3000
                                 (mkWorld {["alice" := 10000]} [])).2)
  = [WaitNotice 7]
  /\ text_of (WaitNotice 7) = "Please wait 7 seconds before sending another message.".
Proof. split; vm_compute; reflexivity. Qed.

(** * Further properties of the code *)

(** ** The cleanup timer *)

Section SweepFacts.

(** The entry of one user after a run of the cleanup. *)
Lemma sweep_at (now : Z) (cooldowns : gmap string Z) (user : string) :
  Cooldown.sweep now cooldowns !! user
  = match cooldowns !! user with
    | Some expiry => if expiry <? now then None else Some expiry
    | None => None
    end.
Proof.
  unfold Cooldown.sweep.
  rewrite foldl_sweepEntry_lookup, expired_entry_listed.
  destruct (cooldowns !! user) as [expiry|]; [|reflexivity].
  now destruct (expiry <? now).
Qed.

End SweepFacts.

(** X1.  Two runs of the cleanup, at the times [t1] and then [t2], leave
    the map one run at the later of the two times leaves; in particular a
    second run at the same time changes nothing. *)
Theorem sweep_twice (t1 t2 : Z) (cooldowns : gmap string Z) :
  Cooldown.sweep t2 (Cooldown.sweep t1 cooldowns) = Cooldown.sweep (Z.max t1 t2) cooldowns
  /\ Cooldown.sweep t1 (Cooldown.sweep t1 cooldowns) = Cooldown.sweep t1 cooldowns.
Proof.
  assert (Hgen : forall a b,
             Cooldown.sweep b (Cooldown.sweep a cooldowns) = Cooldown.sweep (Z.max a b) cooldowns).
  { intros a b. apply map_eq. intros user. rewrite !sweep_at.
    destruct (cooldowns !! user) as [expiry|]; [|reflexivity].
    destruct (Z.ltb_spec expiry a), (Z.ltb_spec expiry (Z.max a b));
      try lia; try reflexivity.
    - destruct (Z.ltb_spec expiry b); [reflexivity | lia].
    - destruct (Z.ltb_spec expiry b); [lia | reflexivity]. }
  split; [apply Hgen|].
  rewrite Hgen. now rewrite Z.max_id.
Qed.

(** X2.  The cleanup is invisible to the cooldown check: a check made at
    a time of the clock that is not before the time of the cleanup gives
    the same answer on the cleaned map as on the map before. *)
Theorem sweep_keeps_check (swept now : Z) (cooldowns : gmap string Z) (user : string)
        (Hclock : 0 <= now) (Hlater : swept <= now) :
  Cooldown.check (Cooldown.sweep swept cooldowns) user now
  = Cooldown.check cooldowns user now.
Proof.
  unfold Cooldown.check, Cooldown.cooldownEnd. rewrite sweep_at.
  destruct (cooldowns !! user) as [expiry|]; [|reflexivity].
  destruct (Z.ltb_spec expiry swept); [|reflexivity].
  simpl. destruct (Z.ltb_spec now 0); [lia|].
  destruct (Z.ltb_spec now expiry); [lia | reflexivity].
Qed.

Lemma sweep_keeps_check_witness :
  Cooldown.check (Cooldown.sweep 20000 {["alice" := 10000; "bob" := 30000]}) "bob" 25000
  = Cooldown.check {["alice" := 10000; "bob" := 30000]} "bob" 25000.
Proof.
  apply (sweep_keeps_check 20000 25000 {["alice" := 10000; "bob" := 30000]} "bob"); lia.
Defined.

(** ** The streamer: sizes and counts *)

Section StreamerCounts.
Import Streamer Rel.

Lemma toolErrorCount_app (a b : list Effect) :
  Tally.toolErrorCount (a ++ b) = (Tally.toolErrorCount a + Tally.toolErrorCount b)%nat.
Proof. unfold Tally.toolErrorCount. now rewrite List.filter_app, length_app. Qed.

(** Every [error] part is reported and the loop goes on. *)
Lemma Loop_tool_errors parts st st' out :
  Loop parts st st' out -> Tally.toolErrorCount out = Tally.errorPartCount parts.
Proof.
  induction 1 as [st|part rest st st1 st2 st3 out1 out2 out3 Hh Hf _ IH]; [reflexivity|].
  rewrite !toolErrorCount_app, IH.
  replace (Tally.toolErrorCount out2) with 0%nat by (destruct Hf; reflexivity).
  destruct Hh; reflexivity.
Qed.

Lemma finalEffects_tool_errors (st : State) :
  Tally.toolErrorCount (Obs.finalEffects st) = 0%nat.
Proof.
  unfold Obs.finalEffects.
  now destruct (0 <? String.length (messageBuffer st))%nat.
Qed.

(** Texts longer than [n] characters add up. *)
Lemma concatStrings_long (n : nat) (l : list string) :
  Forall (fun s => (n < String.length s)%nat) l ->
  (S n * length l ≤ String.length (Obs.concatStrings l))%nat.
Proof.
  induction 1 as [|s l Hs _ IH]; simpl; [lia|].
  rewrite length_append. lia.
Qed.

Lemma finalEffects_flushes_length (st : State) :
  (length (Obs.flushes (Obs.finalEffects st)) ≤ 1)%nat.
Proof.
  unfold Obs.finalEffects.
  destruct (0 <? String.length (messageBuffer st))%nat; simpl; lia.
Qed.

Lemma finalEffects_under (st : State) :
  (String.length (messageBuffer st) ≤ DISCORD_MESSAGE_LENGTH_LIMIT)%nat ->
  Forall (fun s => (String.length s ≤ DISCORD_MESSAGE_LENGTH_LIMIT)%nat)
         (Obs.flushes (Obs.finalEffects st)).
Proof.
  intros Hunder. unfold Obs.finalEffects.
  destruct (0 <? String.length (messageBuffer st))%nat; simpl; [|constructor].
  constructor; [exact Hunder | constructor].
Qed.

End StreamerCounts.

(** X3.  When no text fragment of the stream has more than [k]
    characters, no message the streamer flushes has more than [1990 + k]
    characters. *)
Theorem flush_length_bound (k : nat) (parts : list Part) (w : World)
        (Hfragments : Forall (fun d => (String.length d ≤ k)%nat) (Obs.textDeltas parts)) :
  exists out,
    Streamer.consume parts None w = (Returned tt, extend w out)
    /\ Forall (fun s => (String.length s ≤ 1990 + k)%nat) (Obs.flushes out).
Proof.
  destruct (consume_run parts) as (st' & mid & HL & _ & Hrun & _).
  exists (mid ++ Obs.finalEffects st'). split; [apply Hrun|].
  rewrite flushes_app. apply Forall_app_2.
  - apply (Loop_flush_bound k _ _ _ _ HL); [simpl; lia | exact Hfragments].
  - eapply Forall_impl.
    + apply finalEffects_under, (Loop_buffer_under _ _ _ _ HL). simpl. lia.
    + intros s Hs. unfold DISCORD_MESSAGE_LENGTH_LIMIT in Hs. cbn beta in Hs. lia.
Qed.

Lemma flush_length_bound_witness :
  exists out,
    Streamer.consume [TextDelta "Hello"; TextDelta ", "; TextDelta "world"] None Sample.world0
    = (Returned tt, extend Sample.world0 out)
    /\ Forall (fun s => (String.length s ≤ 1990 + 5)%nat) (Obs.flushes out).
Proof.
  apply (flush_length_bound 5 [TextDelta "Hello"; TextDelta ", "; TextDelta "world"]
                            Sample.world0).
  repeat constructor.
Defined.

(** X4.  Whatever the sizes of the fragments, the message flushed after
    the end of the stream has at most 1990 characters: only a flush inside
    the loop can be longer. *)
Theorem final_flush_under_threshold (parts : list Part) (w : World) :
  exists st' mid fin,
    Streamer.forAwait parts Streamer.initial w = (Returned st', extend w mid)
    /\ Streamer.finalFlush st' (extend w mid) = (Returned tt, extend w (mid ++ fin))
    /\ Streamer.consume parts None w = (Returned tt, extend w (mid ++ fin))
    /\ Forall (fun s => (String.length s ≤ 1990)%nat) (Obs.flushes fin).
Proof.
  destruct (consume_run parts) as (st' & mid & HL & Hloop & Hrun & _).
  exists st', mid, (Obs.finalEffects st').
  split; [apply Hloop|].
  split; [now rewrite finalFlush_run, extend_extend|].
  split; [apply Hrun|].
  apply finalEffects_under, (Loop_buffer_under _ _ _ _ HL). simpl.
  unfold DISCORD_MESSAGE_LENGTH_LIMIT. lia.
Qed.

(** X5.  The number of messages flushed for a stream is bounded by the
    amount of text: all flushes but the last carry more than 1990
    characters of it. *)
Theorem flush_count_bound (parts : list Part) (w : World) :
  exists out,
    Streamer.consume parts None w = (Returned tt, extend w out)
    /\ (1991 * length (Obs.flushes out)
        ≤ String.length (Obs.concatStrings (Obs.textDeltas parts)) + 1991)%nat.
Proof.
  destruct (consume_run parts) as (st' & mid & HL & _ & Hrun & _).
  exists (mid ++ Obs.finalEffects st'). split; [apply Hrun|].
  pose proof (concatStrings_long _ _ (Loop_flush_over _ _ _ _ HL)) as Hmid.
  pose proof (f_equal String.length (Loop_text _ _ _ _ HL)) as Htext.
  rewrite !length_append in Htext. cbn [Streamer.initial Streamer.messageBuffer] in Htext.
  pose proof (finalEffects_flushes_length st') as Hfin.
  rewrite flushes_app, length_app.
  unfold DISCORD_MESSAGE_LENGTH_LIMIT in Hmid. simpl String.length in Htext. lia.
Qed.

(** X6.  An [error] part does not end the response: the streamer sends
    one "error executing the tool" notice per [error] part of the stream,
    wherever the parts occur. *)
Theorem tool_errors_all_reported (parts : list Part) (w : World) :
  exists out,
    Streamer.consume parts None w = (Returned tt, extend w out)
    /\ Tally.toolErrorCount out = Tally.errorPartCount parts.
Proof.
  destruct (consume_run parts) as (st' & mid & HL & _ & Hrun & _).
  exists (mid ++ Obs.finalEffects st'). split; [apply Hrun|].
  rewrite toolErrorCount_app, finalEffects_tool_errors, (Loop_tool_errors _ _ _ _ HL). lia.
Qed.

(** ** The display name of a tool *)

Section ReplaceFacts.

Lemma startsWith_split (pat : string) :
  forall s, Js.startsWith pat s = true -> s = pat +:+ Js.dropChars (String.length pat) s.
Proof.
  induction pat as [|a pat IH]; intros s Hs; [reflexivity|].
  destruct s as [|b s]; [discriminate|]. simpl in Hs.
  destruct (Ascii.eqb_spec a b) as [->|]; [|discriminate].
  rewrite append_cons. simpl. f_equal. now apply IH.
Qed.

Lemma startsWith_append (pat : string) :
  forall s t, Js.startsWith pat s = true -> Js.startsWith pat (s +:+ t) = true.
Proof.
  induction pat as [|a pat IH]; intros s t Hs; [reflexivity|].
  destruct s as [|b s]; [discriminate|]. simpl in Hs.
  rewrite append_cons. simpl.
  destruct (Ascii.eqb a b); [now apply IH | discriminate].
Qed.

(** [replace] rewrites the first occurrence of a non-empty pattern and
    nothing else. *)
Lemma replace_first (pat rep : string) (s : string) :
  pat <> "" ->
  if Js.includes s pat
  then exists pre post,
         s = pre +:+ pat +:+ post
         /\ Js.replace s pat rep = pre +:+ rep +:+ post
         /\ Js.includes pre pat = false
  else Js.replace s pat rep = s.
Proof.
  intros Hpat. induction s as [|c s IH].
  - simpl. destruct pat; [contradiction | reflexivity].
  - simpl. destruct (Js.startsWith pat (String c s)) eqn:Hp.
    + exists "", (Js.dropChars (String.length pat) (String c s)).
      split; [now apply startsWith_split|]. split; [reflexivity|].
      destruct pat; [contradiction | reflexivity].
    + destruct (Js.includes s pat).
      * destruct IH as (pre & post & Hs & Hr & Hpre).
        exists (String c pre), post. rewrite !append_cons.
        split; [now rewrite <- Hs|]. split; [now rewrite Hr|].
        simpl. rewrite Hpre.
        destruct (Js.startsWith pat (String c pre)) eqn:Hq; [|reflexivity].
        apply (startsWith_append _ _ (pat +:+ post)) in Hq.
        rewrite append_cons, <- Hs in Hq. congruence.
      * now rewrite IH.
Qed.

End ReplaceFacts.

(** X7.  The display name of a tool whose identifier contains
    "mastra_mastra" is the identifier without the first occurrence of
    "mastra_mastra"; later occurrences stay.  An identifier without it is
    its own display name. *)
Theorem displayName_removes_first (rawName : string) :
  if Js.includes rawName "mastra_mastra"
  then exists pre post,
         rawName = pre +:+ "mastra_mastra" +:+ post
         /\ Streamer.displayName rawName = pre +:+ post
         /\ Js.includes pre "mastra_mastra" = false
  else Streamer.displayName rawName = rawName.
Proof.
  unfold Streamer.displayName.
  apply (replace_first "mastra_mastra" "" rawName). discriminate.
Qed.

(** ** The handler, path by path *)

Section HandlerPaths.
Variables (fuel : nat) (env : Env) (message : Message) (now : Z) (w : World).

Lemma ChannelType_eqb_DM (c : ChannelType) : ChannelType_eqb c DM = true -> c = DM.
Proof. destruct c; (reflexivity || discriminate). Qed.

(** The three ways the handler can go: it answers at most with one reply
    and returns; it runs the command; it runs the [try] block. *)
Lemma messageCreate_cases :
  (exists out, Router.messageCreate fuel env message now w = (Returned tt, extend w out))
  \/ (content message = "!cleardm"
      /\ exists r out, Router.messageCreate fuel env message now w = (r, extend w out))
  \/ (Obs.accepted message now w /\ content message <> "!cleardm").
Proof.
  destruct (String.eqb_spec (content message) "!cleardm") as [Hcmd|Hne].
  - right. left. split; [exact Hcmd|].
    destruct (cleardm_no_cooldown fuel env message now Hcmd w) as (r & out & Hrun & _).
    eauto.
  - unfold Router.messageCreate.
    destruct (author_bot message) eqn:Hbot; cbn [orb].
    { left. exists []. unfold ret. now rewrite extend_nil. }
    destruct (ChannelType_eqb (channel_type message) DM) eqn:Hdm; cbn [negb andb].
    2:{ left. exists []. unfold ret. now rewrite extend_nil. }
    destruct (Nat.ltb_spec MAX_MESSAGE_LENGTH (String.length (content message))) as [Hlong|Hlen].
    { left. eexists. reflexivity. }
    unfold bind at 1, getCooldowns.
    destruct (Cooldown.check (userCooldowns w) (author_id message) now) eqn:Hcheck.
    { left. eexists. reflexivity. }
    right. right. split; [|exact Hne].
    split; [exact Hbot|]. split; [now apply ChannelType_eqb_DM|].
    split; [exact Hlen | exact Hcheck].
Qed.

(** The [try] block when the agent hands out a stream. *)
Lemma streams_run (parts : list Part) (failure : option JsValue) :
  Obs.accepted message now w ->
  content message <> "!cleardm" ->
  env_agent env = Streams parts failure ->
  exists st' mid,
    Rel.Loop parts Streamer.initial st' mid
    /\ Router.messageCreate fuel env message now w
       = (Returned tt,
          match failure with
          | Some e =>
              mkWorld (delete (author_id message) (userCooldowns w))
                      (trace w ++ CooldownSet (author_id message) (now + COOLDOWN_PERIOD)
                               :: GetAgent "discordMCPBotAgent"
                               :: AgentStream (content message) 10
                               :: mid ++ [CooldownDeleted (author_id message);
                                          Sent (Router.errorNotice e)])
          | None =>
              mkWorld (<[author_id message := now + COOLDOWN_PERIOD]> (userCooldowns w))
                      (trace w ++ CooldownSet (author_id message) (now + COOLDOWN_PERIOD)
                               :: GetAgent "discordMCPBotAgent"
                               :: AgentStream (content message) 10
                               :: mid ++ Obs.finalEffects st')
          end).
Proof.
  intros Hacc Hne Hagent. rewrite (messageCreate_streaming fuel env message now w Hacc Hne).
  destruct (consume_run parts) as (st' & mid & HL & _ & Hok & Hfail).
  exists st', mid. split; [exact HL|].
  unfold tryCatch, Router.streamingPath, Router.respond, Router.callAgent.
  rewrite Hagent. unfold bind, setCooldown, emit, ret. cbn [fst snd].
  destruct failure as [e|].
  - rewrite Hfail.
    unfold Router.catchBlock, bind, deleteCooldown, send, emit, extend. simpl.
    rewrite delete_insert_eq. do 2 f_equal. rewrite <- !app_assoc. reflexivity.
  - rewrite Hok. unfold extend. simpl. do 2 f_equal. rewrite <- !app_assoc. reflexivity.
Qed.

End HandlerPaths.



(** X9.  Handling a message never touches the cooldown entry of another
    user: every entry but the author's is after the handler what it was
    before, on every path and whatever the collaborators do. *)
Theorem other_users_untouched (fuel : nat) (env : Env) (message : Message)
        (now : Z) (w : World) (other : string)
        (Hother : other <> author_id message) :
  userCooldowns (Router.messageCreate fuel env message now w).2 !! other
  = userCooldowns w !! other.
Proof.
  destruct (messageCreate_cases fuel env message now w)
    as [(out & ->)|[(_ & r & out & ->)|(Hacc & Hne)]]; [reflexivity | reflexivity |].
  destruct (streaming_run fuel env message now w Hacc Hne) as (pre & _ & ->).
  destruct (Obs.thrownBy (env_agent env)); cbn [snd userCooldowns].
  - apply lookup_delete_ne. congruence.
  - apply lookup_insert_ne. congruence.
Qed.

Lemma other_users_untouched_witness :
  userCooldowns (Router.messageCreate 1 (mkEnv (Streams [TextDelta "hi"] None) Sample.quietChannel)
                                      (Sample.fromAlice "hello") 5000
                                      (mkWorld {["bob" := 9000]} [])).2 !! "bob"
  = userCooldowns (mkWorld {["bob" := 9000]} []) !! "bob".
Proof.
  apply (other_users_untouched 1 (mkEnv (Streams [TextDelta "hi"] None) Sample.quietChannel)
                               (Sample.fromAlice "hello") 5000
                               (mkWorld {["bob" := 9000]} []) "bob").
  discriminate.
Defined.

(** X10.  After a message has been answered without an error at the time
    [now], a check for the same user at a later time [t] denies exactly
    while [t] is before [now + 10000], and the wait it reports is then
    between 1 and 10 seconds. *)
Theorem cooldown_window (fuel : nat) (env : Env) (message : Message) (now : Z) (w : World)
        (t : Z)
        (Haccepted : Obs.accepted message now w)
        (Hstream : content message <> "!cleardm")
        (Hanswered : Obs.thrownBy (env_agent env) = None)
        (Hlater : now <= t) :
  Cooldown.check (userCooldowns (Router.messageCreate fuel env message now w).2)
                 (author_id message) t
  = (if t <? now + 10000 then Some (Js.ceilDiv (now + 10000 - t) 1000) else None)
  /\ (t < now + 10000 -> 1 <= Js.ceilDiv (now + 10000 - t) 1000 <= 10).
Proof.
  destruct (streaming_run fuel env message now w Haccepted Hstream) as (pre & _ & ->).
  rewrite Hanswered. cbn [snd userCooldowns].
  split.
  - unfold Cooldown.check, Cooldown.cooldownEnd. rewrite lookup_insert_eq. reflexivity.
  - intros Hin. pose proof (ceilDiv_bounds (now + 10000 - t)). lia.
Qed.

Lemma cooldown_window_witness :
  Cooldown.check
    (userCooldowns (Router.messageCreate 1 (mkEnv (Streams [TextDelta "hi"] None)
                                                  Sample.quietChannel)
                                         (Sample.fromAlice "hello") 5000 Sample.world0).2)
    "alice" 8000
  = Some 7
  /\ 1 <= Js.ceilDiv (5000 + 10000 - 8000) 1000 <= 10.
Proof.
  destruct (cooldown_window 1 (mkEnv (Streams [TextDelta "hi"] None) Sample.quietChannel)
                            (Sample.fromAlice "hello") 5000 Sample.world0 8000)
    as [Hcheck Hwait].
  - split; [reflexivity|]. split; [reflexivity|].
    split; [apply Nat.leb_le; vm_compute; reflexivity | vm_compute; reflexivity].
  - discriminate.
  - reflexivity.
  - lia.
  - split; [exact Hcheck | apply Hwait; lia].
Defined.

(** X11.  After the [try] block has thrown, the user is not made to wait:
    a check for the author at any time of the clock allows the next
    message (the [catch] has removed the entry). *)
Theorem retry_after_error (fuel : nat) (env : Env) (message : Message) (now : Z) (w : World)
        (error : JsValue) (t : Z)
        (Haccepted : Obs.accepted message now w)
        (Hstream : content message <> "!cleardm")
        (Hthrown : Obs.thrownBy (env_agent env) = Some error)
        (Hclock : 0 <= t) :
  Cooldown.check (userCooldowns (Router.messageCreate fuel env message now w).2)
                 (author_id message) t
  = None.
Proof.
  destruct (streaming_run fuel env message now w Haccepted Hstream) as (pre & _ & ->).
  rewrite Hthrown. cbn [snd userCooldowns].
  unfold Cooldown.check, Cooldown.cooldownEnd. rewrite lookup_delete_eq. simpl.
  destruct (Z.ltb_spec t 0); [lia | reflexivity].
Qed.

Lemma retry_after_error_witness :
  Cooldown.check
    (userCooldowns (Router.messageCreate 1 (mkEnv (StreamRejects Sample.rateLimitError)
                                                  Sample.quietChannel)
                                         (Sample.fromAlice "hello") 5000 Sample.world0).2)
    "alice" 5001
  = None.
Proof.
  apply (retry_after_error 1 (mkEnv (StreamRejects Sample.rateLimitError) Sample.quietChannel)
                           (Sample.fromAlice "hello") 5000 Sample.world0
                           Sample.rateLimitError 5001).
  - split; [reflexivity|]. split; [reflexivity|].
    split; [apply Nat.leb_le; vm_compute; reflexivity | vm_compute; reflexivity].
  - discriminate.
  - reflexivity.
  - lia.
Defined.

(** X12.  A response that ends normally, seen from the handler: after
    arming the cooldown and calling the agent it sends only tool notices
    and flushes, and the flushes carry the text of the stream, complete and
    in order. *)
Theorem response_delivered (fuel : nat) (env : Env) (message : Message) (now : Z) (w : World)
        (parts : list Part)
        (Haccepted : Obs.accepted message now w)
        (Hstream : content message <> "!cleardm")
        (Hagent : env_agent env = Streams parts None) :
  exists out,
    Router.messageCreate fuel env message now w
    = (Returned tt,
       mkWorld (<[author_id message := now + 10000]> (userCooldowns w))
               (trace w ++ CooldownSet (author_id message) (now + 10000)
                        :: GetAgent "discordMCPBotAgent"
                        :: AgentStream (content message) 10
                        :: out))
    /\ Forall Obs.isStreamEffect out
    /\ Obs.concatStrings (Obs.flushes out) = Obs.concatStrings (Obs.textDeltas parts).
Proof.
  destruct (streams_run fuel env message now w parts None Haccepted Hstream Hagent)
    as (st' & mid & HL & Hrun).
  exists (mid ++ Obs.finalEffects st'). split; [exact Hrun|]. split.
  - apply Forall_app_2; [exact (Loop_effects _ _ _ _ HL) | apply finalEffects_stream].
  - rewrite flushes_app, concatStrings_app, flushes_finalEffects.
    now rewrite (Loop_text _ _ _ _ HL).
Qed.

Lemma response_delivered_witness :
  exists out,
    Router.messageCreate 1 (mkEnv (Streams [TextDelta "Hel"; Finish; TextDelta "lo"] None)
                                  Sample.quietChannel)
                         (Sample.fromAlice "hi") 5000 Sample.world0
    = (Returned tt,
       mkWorld (<["alice" := 5000 + 10000]> ∅)
               ([] ++ CooldownSet "alice" (5000 + 10000)
                   :: GetAgent "discordMCPBotAgent" :: AgentStream "hi" 10 :: out))
    /\ Obs.concatStrings (Obs.flushes out) = "Hello".
Proof.
  destruct (response_delivered
              1 (mkEnv (Streams [TextDelta "Hel"; Finish; TextDelta "lo"] None)
                       Sample.quietChannel)
              (Sample.fromAlice "hi") 5000 Sample.world0
              [TextDelta "Hel"; Finish; TextDelta "lo"])
    as (out & Hrun & _ & Htext).
  - split; [reflexivity|]. split; [reflexivity|].
    split; [apply Nat.leb_le; vm_compute; reflexivity | vm_compute; reflexivity].
  - discriminate.
  - reflexivity.
  - exists out. split; [exact Hrun | exact Htext].
Defined.

(** X13.  When the stream iterator throws, the text still in the buffer
    is never sent: the handler sends the flushes made so far, removes the
    cooldown and sends the error notice.  What is lost is the end of the
    text received, at most 1990 characters. *)
Theorem stream_failure_drops_buffer (fuel : nat) (env : Env) (message : Message) (now : Z)
        (w : World) (parts : list Part) (error : JsValue)
        (Haccepted : Obs.accepted message now w)
        (Hstream : content message <> "!cleardm")
        (Hagent : env_agent env = Streams parts (Some error)) :
  exists out lost,
    Router.messageCreate fuel env message now w
    = (Returned tt,
       mkWorld (delete (author_id message) (userCooldowns w))
               (trace w ++ CooldownSet (author_id message) (now + 10000)
                        :: GetAgent "discordMCPBotAgent"
                        :: AgentStream (content message) 10
                        :: out ++ [CooldownDeleted (author_id message);
                                   Sent (Router.errorNotice error)]))
    /\ Forall Obs.isStreamEffect out
    /\ Obs.concatStrings (Obs.flushes out) +:+ lost = Obs.concatStrings (Obs.textDeltas parts)
    /\ (String.length lost ≤ 1990)%nat.
Proof.
  destruct (streams_run fuel env message now w parts (Some error) Haccepted Hstream Hagent)
    as (st' & mid & HL & Hrun).
  exists mid, (Streamer.messageBuffer st'). split; [exact Hrun|].
  split; [exact (Loop_effects _ _ _ _ HL)|].
  split; [exact (Loop_text _ _ _ _ HL)|].
  apply (Loop_buffer_under _ _ _ _ HL). simpl. unfold DISCORD_MESSAGE_LENGTH_LIMIT. lia.
Qed.

Lemma stream_failure_drops_buffer_witness :
  exists out lost,
    Obs.concatStrings (Obs.flushes out) +:+ lost = "Hello"
    /\ Router.messageCreate 1 (mkEnv (Streams [TextDelta "Hel"; TextDelta "lo"] (Some JsNull))
                                     Sample.quietChannel)
                            (Sample.fromAlice "hi") 5000 Sample.world0
       = (Returned tt,
          mkWorld (delete "alice" ∅)
                  ([] ++ CooldownSet "alice" (5000 + 10000)
                      :: GetAgent "discordMCPBotAgent" :: AgentStream "hi" 10
                      :: out ++ [CooldownDeleted "alice"; Sent GenericErrorNotice])).
Proof.
  destruct (stream_failure_drops_buffer
              1 (mkEnv (Streams [TextDelta "Hel"; TextDelta "lo"] (Some JsNull))
                       Sample.quietChannel)
              (Sample.fromAlice "hi") 5000 Sample.world0
              [TextDelta "Hel"; TextDelta "lo"] JsNull)
    as (out & lost & Hrun & _ & Htext & _).
  - split; [reflexivity|]. split; [reflexivity|].
    split; [apply Nat.leb_le; vm_compute; reflexivity | vm_compute; reflexivity].
  - discriminate.
  - reflexivity.
  - exists out, lost. split; [exact Htext | exact Hrun].
Defined.

(** ** The history purge *)

Section PurgeRuns.
Variable channel : DMChannel.

(** One turn of the [do ... while] loop. *)
Lemma purgeLoop_step (fuel : nat) (hist : list DiscordMessage) (messagesDeleted : nat) :
  Purge.purgeLoop (S fuel) channel hist messagesDeleted
  = (emit (MessagesFetched Purge.PAGE_SIZE) >>
     match fetch_rejects channel with
     | Some e => throw e
     | None =>
         match List.filter (Tally.byBot channel) (take Purge.PAGE_SIZE hist) with
         | [] => ret messagesDeleted
         | _ :: _ =>
             let* st := Purge.deleteEach
                          channel
                          (List.filter (Tally.byBot channel) (take Purge.PAGE_SIZE hist))
                          (hist, messagesDeleted) in
             if (Purge.PAGE_SIZE <=? length (take Purge.PAGE_SIZE hist))%nat
             then Purge.purgeLoop fuel channel st.1 st.2
             else ret st.2
         end
     end).
Proof. reflexivity. Qed.

Lemma removeMessage_subset (id : nat) (hist : list DiscordMessage) (m : DiscordMessage) :
  m ∈ Purge.removeMessage id hist -> m ∈ hist.
Proof.
  unfold Purge.removeMessage. rewrite !list_elem_of_In, List.filter_In. tauto.
Qed.

Lemma deletedIds_app (a b : list Effect) :
  Tally.deletedIds (a ++ b) = Tally.deletedIds a ++ Tally.deletedIds b.
Proof. apply omap_app. Qed.

(** The inner loop: it deletes only purgeable messages of the history,
    it counts what it deletes, the history it leaves is part of the one
    it met, and an error it throws is the platform's. *)
Lemma deleteEach_sound (botMessages : list DiscordMessage) :
  forall st w,
    (forall m, m ∈ botMessages -> m ∈ history channel /\ Tally.byBot channel m = true) ->
    exists r out,
      Purge.deleteEach channel botMessages st w = (r, extend w out)
      /\ Forall (Tally.purgeEffectOf channel) out
      /\ (forall st', r = Returned st' ->
                      st'.2 = (st.2 + length (Tally.deletedIds out))%nat
                      /\ forall m, m ∈ st'.1 -> m ∈ st.1)
      /\ (forall e, r = Thrown e -> Tally.platformError channel e)
      /\ r <> OutOfFuel.
Proof.
  induction botMessages as [|message rest IH]; intros st w Hbots.
  - exists (Returned st), []. simpl. unfold ret. rewrite extend_nil.
    split; [reflexivity|]. split; [constructor|].
    split; [|split; discriminate].
    intros st' [= <-]. split; [simpl; lia | auto].
  - assert (Hrest : forall m, m ∈ rest -> m ∈ history channel /\ Tally.byBot channel m = true).
    { intros m Hm. apply Hbots. now right. }
    destruct (Hbots message) as [Hin Hbot]; [now left|].
    cbn [Purge.deleteEach].
    destruct (msg_deletable message) eqn:Hdel; [|now apply IH].
    destruct (delete_rejects channel (msg_id message)) as [e|] eqn:Hrej.
    + exists (Thrown e), []. unfold throw. rewrite extend_nil.
      split; [reflexivity|]. split; [constructor|].
      split; [discriminate|]. split; [|discriminate].
      intros e' [= <-]. right. eauto.
    + destruct (IH (Purge.removeMessage (msg_id message) st.1, S st.2)
                   (extend w [MessageDeleted (msg_id message); Delayed 1000]) Hrest)
        as (r & out & Hrun & Hout & Hret & Hthrown & Hfuel).
      exists r, ([MessageDeleted (msg_id message); Delayed 1000] ++ out).
      split.
      { unfold bind, emit. cbn [fst snd]. rewrite <- extend_extend.
        rewrite <- Hrun. unfold extend. cbn [userCooldowns trace].
        now rewrite <- app_assoc. }
      split.
      { apply Forall_app_2; [|exact Hout].
        constructor; [|constructor; [exact I | constructor]].
        exists message. unfold Tally.purgeable. now rewrite Hbot, Hdel. }
      split; [|split; assumption].
      intros st' Hst'. destruct (Hret st' Hst') as [Hcount Hsub]. cbn [fst snd] in *.
      split; [rewrite Hcount, deletedIds_app; simpl; lia|].
      intros m Hm. eapply removeMessage_subset, Hsub, Hm.
Qed.

(** The outer loop, for any number of turns. *)
Lemma purgeLoop_sound (fuel : nat) :
  forall hist messagesDeleted w,
    (forall m, m ∈ hist -> m ∈ history channel) ->
    exists r out,
      Purge.purgeLoop fuel channel hist messagesDeleted w = (r, extend w out)
      /\ Forall (Tally.purgeEffectOf channel) out
      /\ (forall n, r = Returned n -> n = (messagesDeleted + length (Tally.deletedIds out))%nat)
      /\ (forall e, r = Thrown e -> Tally.platformError channel e).
Proof.
  induction fuel as [|fuel IH]; intros hist messagesDeleted w Hhist.
  - exists OutOfFuel, []. simpl. unfold outOfFuel. rewrite extend_nil.
    split; [reflexivity|]. split; [constructor|]. split; discriminate.
  - rewrite purgeLoop_step. unfold bind at 1, emit.
    fold (extend w [MessagesFetched Purge.PAGE_SIZE]).
    set (w1 := extend w [MessagesFetched Purge.PAGE_SIZE]).
    destruct (fetch_rejects channel) as [e|] eqn:Hfetch.
    { exists (Thrown e), [MessagesFetched Purge.PAGE_SIZE].
      split; [reflexivity|]. split; [repeat constructor|].
      split; [discriminate|]. intros e' [= <-]. now left. }
    destruct (List.filter (Tally.byBot channel) (take Purge.PAGE_SIZE hist))
      as [|b bots] eqn:Hbots.
    { exists (Returned messagesDeleted), [MessagesFetched Purge.PAGE_SIZE].
      split; [reflexivity|]. split; [repeat constructor|].
      split; [|discriminate]. intros n [= <-]. simpl. lia. }
    assert (Hpage : forall m, m ∈ b :: bots ->
                              m ∈ history channel /\ Tally.byBot channel m = true).
    { intros m Hm. rewrite <- Hbots in Hm.
      apply list_elem_of_In, List.filter_In in Hm as [Hm Hb].
      split; [|exact Hb]. apply Hhist. apply list_elem_of_In in Hm.
      eapply subseteq_take, Hm. }
    destruct (deleteEach_sound (b :: bots) (hist, messagesDeleted) w1 Hpage)
      as (r1 & out1 & Hrun1 & Hout1 & Hret1 & Hthrown1 & _).
    destruct r1 as [st'|e|].
    + destruct (Hret1 st' eq_refl) as [Hcount Hsub]. cbn [fst snd] in Hcount, Hsub.
      rewrite (bind_returned _ _ _ _ _ Hrun1).
      destruct (Purge.PAGE_SIZE <=? length (take Purge.PAGE_SIZE hist))%nat.
      * destruct (IH st'.1 st'.2 (extend w1 out1)) as (r & out & Hrun & Hout & Hret & Hthrown).
        { intros m Hm. apply Hhist, Hsub, Hm. }
        exists r, ([MessagesFetched Purge.PAGE_SIZE] ++ out1 ++ out).
        split; [now rewrite Hrun; unfold w1; rewrite !extend_extend|].
        split; [repeat apply Forall_app_2; [repeat constructor | exact Hout1 | exact Hout]|].
        split; [|exact Hthrown].
        intros n Hn. rewrite (Hret n Hn), Hcount, !deletedIds_app, !length_app. simpl. lia.
      * exists (Returned st'.2), ([MessagesFetched Purge.PAGE_SIZE] ++ out1).
        split; [now unfold ret, w1; rewrite extend_extend|].
        split; [apply Forall_app_2; [repeat constructor | exact Hout1]|].
        split; [|discriminate].
        intros n [= <-]. rewrite Hcount, deletedIds_app. simpl. lia.
    + rewrite (bind_thrown _ _ _ _ _ Hrun1).
      exists (Thrown e), ([MessagesFetched Purge.PAGE_SIZE] ++ out1).
      split; [now unfold w1; rewrite extend_extend|].
      split; [apply Forall_app_2; [repeat constructor | exact Hout1]|].
      split; [discriminate|].
      intros e' [= <-]. now apply Hthrown1.
    + rewrite (bind_out_of_fuel _ _ _ _ Hrun1).
      exists OutOfFuel, ([MessagesFetched Purge.PAGE_SIZE] ++ out1).
      split; [now unfold w1; rewrite extend_extend|].
      split; [apply Forall_app_2; [repeat constructor | exact Hout1]|].
      split; discriminate.
Qed.

End PurgeRuns.

Section PurgeExact.
Variable channel : DMChannel.

(** The inner loop when the platform rejects no deletion: exactly the
    deletable messages go, in order. *)
Lemma deleteEach_run (botMessages : list DiscordMessage) :
  Tally.deletesResolve channel ->
  forall st w,
    Purge.deleteEach channel botMessages st w
    = (Returned (foldl (fun h m => Purge.removeMessage (msg_id m) h) st.1
                       (List.filter msg_deletable botMessages),
                 (st.2 + length (List.filter msg_deletable botMessages))%nat),
       extend w (Tally.deletionEffects (List.filter msg_deletable botMessages))).
Proof.
  intros Hresolve. induction botMessages as [|message rest IH]; intros [hist n] w.
  - simpl. unfold ret. rewrite extend_nil. now rewrite Nat.add_0_r.
  - cbn [Purge.deleteEach List.filter]. destruct (msg_deletable message); [|apply IH].
    rewrite Hresolve. unfold bind, emit. cbn [fst snd]. rewrite IH.
    cbn [fst snd foldl length Tally.deletionEffects flat_map].
    unfold extend. cbn [userCooldowns trace]. rewrite <- !app_assoc.
    do 3 f_equal. lia.
Qed.

Lemma filter_purgeable (ms : list DiscordMessage) :
  List.filter msg_deletable (List.filter (Tally.byBot channel) ms)
  = List.filter (Tally.purgeable channel) ms.
Proof.
  induction ms as [|m ms IH]; [reflexivity|].
  unfold Tally.purgeable in *. cbn [List.filter].
  destruct (Tally.byBot channel m); cbn [List.filter andb]; now rewrite IH.
Qed.

Lemma filter_all {A} (f : A -> bool) (l : list A) :
  Forall (fun x => f x = true) l -> List.filter f l = l.
Proof. induction 1 as [|x l Hx _ IH]; simpl; [reflexivity | now rewrite Hx, IH]. Qed.

Lemma filter_none {A} (f : A -> bool) (l : list A) :
  Forall (fun x => f x = false) l -> List.filter f l = [].
Proof. induction 1 as [|x l Hx _ IH]; simpl; [reflexivity | now rewrite Hx]. Qed.

Lemma removeMessage_absent (id : nat) (hist : list DiscordMessage) :
  id ∉ msg_id <$> hist -> Purge.removeMessage id hist = hist.
Proof.
  intros Hid. apply filter_all, Forall_forall. intros m Hm.
  apply negb_true_iff, Nat.eqb_neq. intros Heq. apply Hid.
  rewrite <- Heq. now apply list_elem_of_fmap_2.
Qed.

(** With distinct ids, deleting the first messages of the history one
    by one leaves the rest of it. *)
Lemma remove_front (front rest : list DiscordMessage) :
  NoDup (msg_id <$> front ++ rest) ->
  foldl (fun h m => Purge.removeMessage (msg_id m) h) (front ++ rest) front = rest.
Proof.
  induction front as [|m front IH]; intros Hnd; [reflexivity|].
  rewrite <- app_comm_cons, fmap_cons in Hnd. apply NoDup_cons in Hnd as [Hm Hnd].
  cbn [foldl app]. unfold Purge.removeMessage at 2. cbn [List.filter].
  rewrite Nat.eqb_refl. cbn [negb].
  fold (Purge.removeMessage (msg_id m) (front ++ rest)).
  rewrite (removeMessage_absent _ _ Hm). now apply IH.
Qed.

Lemma deletedIds_deletionEffects (ms : list DiscordMessage) :
  Tally.deletedIds (Tally.deletionEffects ms) = msg_id <$> ms.
Proof.
  induction ms as [|m ms IH]; [reflexivity|].
  change (Tally.deletionEffects (m :: ms))
    with ([MessageDeleted (msg_id m); Delayed 1000] ++ Tally.deletionEffects ms).
  rewrite deletedIds_app, IH. reflexivity.
Qed.

Lemma fetchCount_deletionEffects (ms : list DiscordMessage) :
  Tally.fetchCount (Tally.deletionEffects ms) = 0%nat.
Proof.
  induction ms as [|m ms IH]; [reflexivity|].
  change (Tally.deletionEffects (m :: ms))
    with ([MessageDeleted (msg_id m); Delayed 1000] ++ Tally.deletionEffects ms).
  unfold Tally.fetchCount in *. rewrite List.filter_app, length_app, IH. reflexivity.
Qed.

(** The purge of a history of purgeable messages with distinct ids, page
    after page. *)
Lemma purgeLoop_all (fuel : nat) :
  fetch_rejects channel = None ->
  Tally.deletesResolve channel ->
  forall hist messagesDeleted w,
    Forall (fun m => Tally.purgeable channel m = true) hist ->
    NoDup (msg_id <$> hist) ->
    (length hist < 100 * fuel)%nat ->
    exists out,
      Purge.purgeLoop fuel channel hist messagesDeleted w
      = (Returned (messagesDeleted + length hist)%nat, extend w out)
      /\ Tally.deletedIds out = msg_id <$> hist
      /\ Tally.fetchCount out = (length hist / 100 + 1)%nat.
Proof.
  intros Hfetch Hresolve.
  induction fuel as [|fuel IH]; intros hist messagesDeleted w Hall Hnd Hfuel; [lia|].
  rewrite purgeLoop_step, Hfetch. unfold bind at 1, emit.
  fold (extend w [MessagesFetched Purge.PAGE_SIZE]).
  assert (Hpage : List.filter (Tally.byBot channel) (take Purge.PAGE_SIZE hist)
                  = take Purge.PAGE_SIZE hist).
  { apply filter_all. apply Forall_take. eapply Forall_impl; [exact Hall|].
    intros m Hm. unfold Tally.purgeable in Hm. now apply andb_true_iff in Hm. }
  assert (Hdeletable : List.filter msg_deletable (take Purge.PAGE_SIZE hist)
                       = take Purge.PAGE_SIZE hist).
  { apply filter_all. apply Forall_take. eapply Forall_impl; [exact Hall|].
    intros m Hm. unfold Tally.purgeable in Hm. now apply andb_true_iff in Hm. }
  rewrite Hpage.
  destruct (take Purge.PAGE_SIZE hist) as [|m page] eqn:Htake.
  - assert (hist = []) as ->.
    { destruct hist; [reflexivity | discriminate]. }
    exists [MessagesFetched Purge.PAGE_SIZE]. unfold ret.
    split; [now rewrite Nat.add_0_r|]. split; reflexivity.
  - rewrite <- Htake in *. clear m page Htake.
    unfold bind. rewrite (deleteEach_run _ Hresolve). cbn [fst snd].
    rewrite Hdeletable.
    assert (Hleft : foldl (fun h m => Purge.removeMessage (msg_id m) h) hist
                          (take Purge.PAGE_SIZE hist)
                    = drop Purge.PAGE_SIZE hist).
    { rewrite <- (take_drop Purge.PAGE_SIZE hist) at 1.
      apply remove_front. now rewrite take_drop. }
    rewrite Hleft.
    pose proof (deletedIds_deletionEffects (take Purge.PAGE_SIZE hist)) as Hids.
    pose proof (fetchCount_deletionEffects (take Purge.PAGE_SIZE hist)) as Hnofetch.
    rewrite length_take. unfold Purge.PAGE_SIZE in *.
    destruct (Nat.leb_spec 100 (100 `min` length hist)) as [Hfull|Hshort].
    + destruct (IH (drop 100 hist) (messagesDeleted + 100 `min` length hist)%nat
                   (extend (extend w [MessagesFetched 100])
                           (Tally.deletionEffects (take 100 hist))))
        as (out & Hrun & Hout & Hcount).
      { now apply Forall_drop. }
      { rewrite fmap_drop. eapply sublist_NoDup; [exact Hnd | apply sublist_drop]. }
      { rewrite length_drop. lia. }
      exists ([MessagesFetched 100] ++ Tally.deletionEffects (take 100 hist) ++ out).
      rewrite Hrun, !extend_extend, length_drop.
      split; [do 2 f_equal; lia|]. split.
      * rewrite !deletedIds_app, Hids, Hout. cbn [Tally.deletedIds omap app].
        rewrite <- fmap_app. now rewrite take_drop.
      * unfold Tally.fetchCount in *. rewrite !List.filter_app, !length_app.
        rewrite Hnofetch, Hcount, length_drop. cbn [List.filter Tally.isFetch length].
        replace (length hist) with (length hist - 100 + 1 * 100)%nat at 2 by lia.
        rewrite Nat.div_add by lia. lia.
    + exists ([MessagesFetched 100] ++ Tally.deletionEffects (take 100 hist)).
      unfold ret. rewrite extend_extend.
      assert (Hall' : take 100 hist = hist) by (apply take_ge; lia).
      split; [do 2 f_equal; lia|]. split.
      * rewrite deletedIds_app, Hids, Hall'. reflexivity.
      * unfold Tally.fetchCount in *. rewrite List.filter_app, length_app, Hnofetch.
        rewrite Nat.div_small by lia. reflexivity.
Qed.

(** A page on which no message of the bot can be deleted is left as it
    is by the inner loop. *)
Lemma deleteEach_stuck (botMessages : list DiscordMessage) :
  Forall (fun m => msg_deletable m = false) botMessages ->
  forall st w, Purge.deleteEach channel botMessages st w = (Returned st, w).
Proof.
  induction 1 as [|m rest Hm _ IH]; intros st w; [reflexivity|].
  cbn [Purge.deleteEach]. rewrite Hm. apply IH.
Qed.

End PurgeExact.

Section PurgeWhole.
Variable channel : DMChannel.

(** The whole purge: its effects, and the error it ends with. *)
Lemma clearBotDirectMessages_sound (fuel : nat) (w : World) :
  exists r out,
    Purge.clearBotDirectMessages fuel channel w = (r, extend w out)
    /\ Forall (Tally.purgeEffectOf channel) out
    /\ match r with
       | Thrown e => Tally.platformError channel e
       | _ => True
       end.
Proof.
  destruct (purgeLoop_sound channel fuel (history channel) 0%nat w)
    as (r & out & Hrun & Hout & _ & Hthrown); [auto|].
  unfold Purge.clearBotDirectMessages, tryCatch, bind. rewrite Hrun.
  destruct r as [n|e|].
  - exists (Returned tt), out. auto.
  - exists (Thrown e), out. unfold throw. split; [reflexivity|]. split; [exact Hout|].
    now apply Hthrown.
  - exists OutOfFuel, out. auto.
Qed.

(** A page of a hundred messages on which the bot has messages, none of
    them deletable, is fetched again and again. *)
Lemma purgeLoop_spins (hist : list DiscordMessage) (messagesDeleted : nat) :
  fetch_rejects channel = None ->
  (100 ≤ length hist)%nat ->
  List.filter (Tally.byBot channel) (take 100 hist) <> [] ->
  Forall (fun m => msg_deletable m = false)
         (List.filter (Tally.byBot channel) (take 100 hist)) ->
  forall fuel w,
    Purge.purgeLoop fuel channel hist messagesDeleted w
    = (OutOfFuel, extend w (replicate fuel (MessagesFetched 100))).
Proof.
  intros Hfetch Hfull Hbots Hstuck.
  induction fuel as [|fuel IH]; intros w.
  - simpl. unfold outOfFuel. now rewrite extend_nil.
  - rewrite purgeLoop_step, Hfetch. unfold bind at 1, emit.
    fold (extend w [MessagesFetched Purge.PAGE_SIZE]). unfold Purge.PAGE_SIZE.
    destruct (List.filter (Tally.byBot channel) (take 100 hist)) as [|b bots] eqn:Hpage;
      [contradiction|].
    unfold bind. rewrite (deleteEach_stuck channel _ Hstuck). cbn [fst snd].
    rewrite length_take.
    destruct (Nat.leb_spec 100 (100 `min` length hist)); [|lia].
    rewrite IH, extend_extend. reflexivity.
Qed.

End PurgeWhole.

(** X14.  The purge touches nothing it should not: it only fetches pages,
    deletes and pauses; every message it deletes is a deletable message of
    the channel history written by the bot itself; and when it throws, the
    error is the one the platform answered to a fetch or a deletion. *)
Theorem purge_is_safe (fuel : nat) (channel : DMChannel) (w : World) :
  exists r out,
    Purge.clearBotDirectMessages fuel channel w = (r, extend w out)
    /\ Forall (Tally.purgeEffectOf channel) out
    /\ match r with
       | Thrown e => Tally.platformError channel e
       | _ => True
       end.
Proof. apply clearBotDirectMessages_sound. Qed.

(** X15.  The number of deleted messages the purge reports (line 41) is
    the number of deletions it has performed. *)
Theorem purge_count_matches (fuel : nat) (channel : DMChannel) (w : World) :
  exists r out,
    Purge.purgeLoop fuel channel (history channel) 0 w = (r, extend w out)
    /\ match r with
       | Returned messagesDeleted => messagesDeleted = length (Tally.deletedIds out)
       | _ => True
       end.
Proof.
  destruct (purgeLoop_sound channel fuel (history channel) 0%nat w)
    as (r & out & Hrun & _ & Hcount & _); [auto|].
  exists r, out. split; [exact Hrun|].
  destruct r as [n| |]; [|exact I..]. now rewrite (Hcount n eq_refl).
Qed.

(** X16.  The purge can fail to end.  When the newest hundred messages
    hold messages of the bot but none that can be deleted, every turn of
    the loop fetches the same page and deletes nothing: however many turns
    are allowed, the purge is still running, with one fetch per turn. *)
Theorem purge_spins (channel : DMChannel) (fuel : nat) (w : World)
        (Hfetch : fetch_rejects channel = None)
        (Hfull : (100 ≤ length (history channel))%nat)
        (Hbots : List.filter (Tally.byBot channel) (take 100 (history channel)) <> [])
        (Hstuck : Forall (fun m => msg_deletable m = false)
                         (List.filter (Tally.byBot channel) (take 100 (history channel)))) :
  Purge.clearBotDirectMessages fuel channel w
  = (OutOfFuel, extend w (replicate fuel (MessagesFetched 100))).
Proof.
  unfold Purge.clearBotDirectMessages, tryCatch, bind.
  now rewrite (purgeLoop_spins channel _ _ Hfetch Hfull Hbots Hstuck).
Qed.

Lemma purge_spins_witness :
  Purge.clearBotDirectMessages
    7 (mkDMChannel "bot" (replicate 100 (mkDiscordMessage 1 "bot" false)) None (fun _ => None))
    Sample.world0
  = (OutOfFuel, extend Sample.world0 (replicate 7 (MessagesFetched 100))).
Proof.
  apply (purge_spins
           (mkDMChannel "bot" (replicate 100 (mkDiscordMessage 1 "bot" false)) None
                        (fun _ => None))
           7 Sample.world0).
  - reflexivity.
  - apply Nat.leb_le. vm_compute. reflexivity.
  - vm_compute. discriminate.
  - apply Forall_forall. intros m Hm.
    apply list_elem_of_In, List.filter_In in Hm as [Hm _].
    apply list_elem_of_In in Hm. cbn [history] in Hm.
    apply subseteq_take, elem_of_replicate in Hm as [-> _]. reflexivity.
Defined.

(** X17.  The purge looks only as far as the first page without a
    message of the bot: when none of the newest hundred messages is the
    bot's, it fetches once, deletes nothing and returns, whatever older
    messages the history holds. *)
Theorem purge_stops_at_botless_page (channel : DMChannel) (fuel : nat) (w : World)
        (Hfetch : fetch_rejects channel = None)
        (Hnone : Forall (fun m => Tally.byBot channel m = false)
                        (take 100 (history channel))) :
  Purge.clearBotDirectMessages (S fuel) channel w
  = (Returned tt, extend w [MessagesFetched 100]).
Proof.
  unfold Purge.clearBotDirectMessages, tryCatch. unfold bind at 1.
  rewrite purgeLoop_step, Hfetch. unfold Purge.PAGE_SIZE.
  now rewrite (filter_none _ _ Hnone).
Qed.

Lemma purge_stops_at_botless_page_witness :
  Purge.clearBotDirectMessages
    1 (mkDMChannel "bot"
                   (replicate 100 (mkDiscordMessage 1 "alice" false)
                    ++ [mkDiscordMessage 2 "bot" true])
                   None (fun _ => None))
    Sample.world0
  = (Returned tt, extend Sample.world0 [MessagesFetched 100]).
Proof.
  apply (purge_stops_at_botless_page
           (mkDMChannel "bot"
                        (replicate 100 (mkDiscordMessage 1 "alice" false)
                         ++ [mkDiscordMessage 2 "bot" true])
                        None (fun _ => None))
           0 Sample.world0).
  - reflexivity.
  - cbn [history]. rewrite take_app_le by (rewrite length_replicate; lia).
    apply Forall_take, Forall_replicate. reflexivity.
Defined.

(** X18.  A history of fewer than a hundred messages is purged in one
    turn: after a single fetch the purge deletes exactly the deletable
    messages of the bot, newest first, pauses after each, and returns;
    messages of the user and messages that cannot be deleted stay. *)
Theorem purge_short_history (channel : DMChannel) (fuel : nat) (w : World)
        (Hfetch : fetch_rejects channel = None)
        (Hresolve : Tally.deletesResolve channel)
        (Hshort : (length (history channel) < 100)%nat) :
  Purge.clearBotDirectMessages (S fuel) channel w
  = (Returned tt,
     extend w (MessagesFetched 100
               :: Tally.deletionEffects
                    (List.filter (Tally.purgeable channel) (history channel)))).
Proof.
  unfold Purge.clearBotDirectMessages, tryCatch. unfold bind at 1.
  rewrite purgeLoop_step, Hfetch. unfold Purge.PAGE_SIZE.
  rewrite (take_ge (history channel) 100) by lia.
  rewrite <- filter_purgeable. unfold bind at 1, emit.
  fold (extend w [MessagesFetched 100]).
  destruct (List.filter (Tally.byBot channel) (history channel)) as [|b bots] eqn:Hbots.
  - reflexivity.
  - unfold bind. rewrite (deleteEach_run channel _ Hresolve). cbn [fst snd].
    destruct (Nat.leb_spec 100 (length (history channel))); [lia|].
    unfold ret. now rewrite extend_extend.
Qed.

Lemma purge_short_history_witness :
  Purge.clearBotDirectMessages
    1 (mkDMChannel "bot"
                   [mkDiscordMessage 4 "bot" true; mkDiscordMessage 3 "alice" false;
                    mkDiscordMessage 2 "bot" false; mkDiscordMessage 1 "bot" true]
                   None (fun _ => None))
    Sample.world0
  = (Returned tt,
     extend Sample.world0
            [MessagesFetched 100; MessageDeleted 4; Delayed 1000;
             MessageDeleted 1; Delayed 1000]).
Proof.
  apply (purge_short_history
           (mkDMChannel "bot"
                        [mkDiscordMessage 4 "bot" true; mkDiscordMessage 3 "alice" false;
                         mkDiscordMessage 2 "bot" false; mkDiscordMessage 1 "bot" true]
                        None (fun _ => None))
           0 Sample.world0).
  - reflexivity.
  - intros id. reflexivity.
  - simpl. lia.
Defined.

(** X19.  A history made only of deletable messages of the bot, with
    distinct ids, is purged completely when no request is rejected: the
    purge returns having deleted every message once, newest first, and has
    fetched one page per started hundred of messages plus a last one. *)
Theorem purge_deletes_everything (channel : DMChannel) (fuel : nat) (w : World)
        (Hfetch : fetch_rejects channel = None)
        (Hresolve : Tally.deletesResolve channel)
        (Hall : Forall (fun m => Tally.purgeable channel m = true) (history channel))
        (Hids : NoDup (msg_id <$> history channel))
        (Hfuel : (length (history channel) < 100 * fuel)%nat) :
  exists out,
    Purge.clearBotDirectMessages fuel channel w = (Returned tt, extend w out)
    /\ Tally.deletedIds out = msg_id <$> history channel
    /\ Tally.fetchCount out = (length (history channel) / 100 + 1)%nat.
Proof.
  destruct (purgeLoop_all channel fuel Hfetch Hresolve (history channel) 0%nat w Hall Hids Hfuel)
    as (out & Hrun & Hdeleted & Hfetched).
  exists out. split; [|split; assumption].
  unfold Purge.clearBotDirectMessages, tryCatch, bind. now rewrite Hrun.
Qed.

Lemma ids_of_messages (author : string) (deletable : bool) (ids : list nat) :
  msg_id <$> ((fun id => mkDiscordMessage id author deletable) <$> ids) = ids.
Proof. induction ids as [|id ids IH]; [reflexivity|]. simpl. now f_equal. Qed.

Lemma purge_deletes_everything_witness :
  exists out,
    Purge.clearBotDirectMessages
      2 (mkDMChannel "bot"
                     ((fun id => mkDiscordMessage id "bot" true) <$> seq 0 150)
                     None (fun _ => None))
      Sample.world0
    = (Returned tt, extend Sample.world0 out)
    /\ Tally.deletedIds out = seq 0 150
    /\ Tally.fetchCount out = 2%nat.
Proof.
  destruct (purge_deletes_everything
              (mkDMChannel "bot"
                           ((fun id => mkDiscordMessage id "bot" true) <$> seq 0 150)
                           None (fun _ => None))
              2 Sample.world0)
    as (out & Hrun & Hdeleted & Hfetched).
  - reflexivity.
  - intros id. reflexivity.
  - cbn [history]. apply Forall_fmap, Forall_forall. intros id _. reflexivity.
  - cbn [history]. rewrite ids_of_messages. apply NoDup_seq.
  - cbn [history]. rewrite length_fmap, length_seq. lia.
  - exists out. split; [exact Hrun|]. split.
    + rewrite Hdeleted. cbn [history]. apply ids_of_messages.
    + rewrite Hfetched. cbn [history]. rewrite length_fmap, length_seq. reflexivity.
Defined.


(** X20.  An accepted "!cleardm": the handler first replies "Deleting my
    messages...", then only purges (fetches, deletions of the bot's own
    deletable messages of this channel, pauses); the agent is never
    called.  If the handler throws, it throws an error of the platform. *)
Theorem cleardm_acknowledged_then_purges (fuel : nat) (env : Env) (message : Message)
        (now : Z) (w : World)
        (Haccepted : Obs.accepted message now w)
        (Hcommand : content message = "!cleardm") :
  exists r out,
    Router.messageCreate fuel env message now w
    = (r, extend w (Replied DeletingNotice :: out))
    /\ Forall (Tally.purgeEffectOf (env_channel env)) out
    /\ match r with
       | Thrown e => Tally.platformError (env_channel env) e
       | _ => True
       end.
Proof.
  destruct Haccepted as (Hbot & Hdm & Hlen & Hcheck).
  unfold Router.messageCreate. rewrite Hbot, Hdm. cbn [ChannelType_eqb negb orb andb].
  apply Nat.ltb_ge in Hlen. rewrite Hlen.
  unfold bind at 1, getCooldowns. rewrite Hcheck, Hcommand.
  change (String.eqb "!cleardm" "!cleardm") with true. cbv iota.
  unfold bind, reply, emit. fold (extend w [Replied DeletingNotice]).
  destruct (clearBotDirectMessages_sound (env_channel env) fuel
                                         (extend w [Replied DeletingNotice]))
    as (r & out & Hrun & Hout & Herr).
  exists r, out. rewrite Hrun, extend_extend. auto.
Qed.

Lemma cleardm_acknowledged_then_purges_witness :
  exists r out,
    Router.messageCreate 3 (mkEnv (Streams [TextDelta "unused"] None) Sample.brokenChannel)
                         (Sample.fromAlice "!cleardm") 5000 Sample.world0
    = (r, extend Sample.world0 (Replied DeletingNotice :: out))
    /\ Forall (Tally.purgeEffectOf Sample.brokenChannel) out.
Proof.
  destruct (cleardm_acknowledged_then_purges
              3 (mkEnv (Streams [TextDelta "unused"] None) Sample.brokenChannel)
              (Sample.fromAlice "!cleardm") 5000 Sample.world0)
    as (r & out & Hrun & Hout & _).
  - split; [reflexivity|]. split; [reflexivity|].
    split; [apply Nat.leb_le; vm_compute; reflexivity | vm_compute; reflexivity].
  - reflexivity.
  - exists r, out. split; [exact Hrun | exact Hout].
Defined.
